(** * kbfsfuse: the File node of the KBFS FUSE adapter

  A shallow embedding of [kbfsfuse/file.go].  Every method of [*File] runs
  with the folder lock held for its whole duration, so each one is modelled
  as one sequential computation over the state it can reach: the node
  itself, the chain of parent directories behind [f.parent], and the
  backend behind [KBFSOps()].  Go's [error] results are ordinary values;
  run-time panics (index or slice bounds out of range) are a separate
  outcome. *)

From Stdlib Require Import ZArith List String Bool Lia.
From Stdlib Require Import Init.Byte.
Import ListNotations.

Local Open Scope Z_scope.

(* ===================================================================== *)
(** ** Go run-time operations used by file.go *)
(* ===================================================================== *)

Module Go.

(** [error] values that reach this layer: errno-style codes (as
    [fuse.Errno]) and anything else an [error] interface may hold. *)
Inductive error : Type :=
| Errno (code : Z)
| ErrorString (msg : string).

(** Run-time panics. *)
Inductive panic : Type :=
| IndexOutOfRange         (* s[i] with i < 0 or i >= len(s) *)
| SliceBoundsOutOfRange   (* s[:hi] with hi < 0 or hi > cap(s) *)
| CalleePanic.            (* a panic raised inside a called method *)

(** [len(s)]: an [int]. *)
Definition len {A : Type} (s : list A) : Z := Z.of_nat (List.length s).

(** [s[i]]: bounds-checked indexing. *)
Definition index {A : Type} (s : list A) (i : Z) : option A :=
  if (0 <=? i) && (i <? len s) then nth_error s (Z.to_nat i) else None.

(** [s[:hi]] for [hi <= len(s)] (the only use on a Path): the bounds check
    [0 <= hi <= cap(s)] passes whenever [0 <= hi <= len(s)] and fails
    whenever [hi < 0]. *)
Definition slice_to {A : Type} (s : list A) (hi : Z) : option (list A) :=
  if (0 <=? hi) && (hi <=? len s) then Some (firstn (Z.to_nat hi) s) else None.

(** An octal literal, most significant digit first: [octal [6;4;4]] is
    Go's [0644]. *)
Definition octal (digits : list Z) : Z :=
  fold_left (fun acc d => 8 * acc + d) digits 0.

(** A byte slice with its capacity: [backing] is the underlying array from
    the slice's start, its length is [cap], and the slice holds the
    first [slen] bytes of it. *)
Record bytes : Type := mkBytes { backing : list byte; slen : Z }.

Definition cap (s : bytes) : Z := len (backing s).

Definition contents (s : bytes) : list byte := firstn (Z.to_nat (slen s)) (backing s).

(** [s[:hi]] on a byte slice: checked against the capacity. *)
Definition reslice (s : bytes) (hi : Z) : option bytes :=
  if (0 <=? hi) && (hi <=? cap s) then Some (mkBytes (backing s) hi) else None.

(** What a callee that was handed a buffer of [len buf] bytes leaves in
    it after storing [out]: it can overwrite elements, never resize. *)
Definition overwrite (buf out : list byte) : list byte :=
  firstn (List.length buf) (out ++ skipn (List.length out) buf).

End Go.

(* ===================================================================== *)
(** ** libkbfs: the types and the operation set consumed from the backend *)
(* ===================================================================== *)

Module libkbfs.

(** The opaque block pointer of a path segment. *)
Definition BlockPointer := Z.
Definition DirId := Z.

Record PathNode : Type := mkPathNode { ptr : BlockPointer; Name : string }.

(** [Path.Path] is the root-first sequence of segments. *)
Record Path : Type := mkPath { TopDir : DirId; Path_ : list PathNode }.

Inductive EntryType : Type := File_ | Exec | Dir_ | Sym.

Definition EntryType_eqb (a b : EntryType) : bool :=
  match a, b with
  | File_, File_ | Exec, Exec | Dir_, Dir_ | Sym, Sym => true
  | _, _ => false
  end.

(** Timestamps, in nanoseconds. *)
Definition Time := Z.

Record DirEntry : Type := mkDirEntry {
  Type_ : EntryType;
  Size : Z;
  Mtime : Time;
  Ctime : Time
}.

(** The [KBFSOps] interface, as far as file.go calls it, over a backend
    state [B].  Each operation returns Go's result tuple and the backend's
    next state; a buffer handed to [Read] comes back as the bytes stored. *)
Class KBFSOps (Ctx B : Type) : Type := {
  Stat : Ctx -> Path -> B -> (DirEntry * option Go.error) * B;
  Read : Ctx -> Path -> list byte -> Z -> B -> (list byte * Z * option Go.error) * B;
  Write : Ctx -> Path -> list byte -> Z -> B -> option Go.error * B;
  Truncate : Ctx -> Path -> Z -> B -> option Go.error * B;
  SetEx : Ctx -> Path -> bool -> B -> (Path * option Go.error) * B;
  SetMtime : Ctx -> Path -> Time -> B -> (Path * option Go.error) * B;
  Sync : Ctx -> Path -> B -> (Path * option Go.error) * B
}.

(** The backend calls a File method can make, as they are recorded. *)
Inductive Call : Type :=
| CallStat (p : Path)
| CallRead (p : Path) (size : Z) (off : Z)
| CallWrite (p : Path) (data : list byte) (off : Z)
| CallTruncate (p : Path) (size : Z)
| CallSetEx (p : Path) (ex : bool)
| CallSetMtime (p : Path) (mtime : Time)
| CallSync (p : Path).

End libkbfs.

(* ===================================================================== *)
(** ** bazil.org/fuse: request and response records *)
(* ===================================================================== *)

Module fuse.

(** [fuse.ENOSYS = Errno(syscall.ENOSYS)]. *)
Definition ENOSYS : Go.error := Go.Errno 38.

(** [SetattrValid] bits. *)
Definition SetattrMode : Z := Z.shiftl 1 0.
Definition SetattrUid : Z := Z.shiftl 1 1.
Definition SetattrGid : Z := Z.shiftl 1 2.
Definition SetattrSize : Z := Z.shiftl 1 3.
Definition SetattrAtime : Z := Z.shiftl 1 4.
Definition SetattrMtime : Z := Z.shiftl 1 5.
Definition SetattrHandle : Z := Z.shiftl 1 6.
Definition SetattrAtimeNow : Z := Z.shiftl 1 7.
Definition SetattrMtimeNow : Z := Z.shiftl 1 8.
Definition SetattrLockOwner : Z := Z.shiftl 1 9.

(** [valid.Size()], [valid.Mode()], [valid.Mtime()]. *)
Definition has (valid flag : Z) : bool := negb (Z.land valid flag =? 0).

(** [valid &^ flag]. *)
Definition clear (valid flag : Z) : Z := Z.ldiff valid flag.

Record Attr : Type := mkAttr {
  Inode : Z;
  Size : Z;
  Blocks : Z;
  Atime : libkbfs.Time;
  Mtime : libkbfs.Time;
  Ctime : libkbfs.Time;
  Mode : Z;
  Nlink : Z;
  Uid : Z;
  Gid : Z
}.

Record ReadRequest : Type := mkReadRequest { r_Offset : Z; r_Size : Z }.
Record ReadResponse : Type := mkReadResponse { r_Data : Go.bytes }.

Record WriteRequest : Type := mkWriteRequest { w_Data : list byte; w_Offset : Z }.
Record WriteResponse : Type := mkWriteResponse { w_Size : Z }.

Record SetattrRequest : Type := mkSetattrRequest {
  s_Valid : Z;
  s_Size : Z;
  s_Atime : libkbfs.Time;
  s_Mtime : libkbfs.Time;
  s_Mode : Z
}.

(** The same request with another [Valid] set, or another [Mode]. *)
Definition with_Valid (req : SetattrRequest) (valid : Z) : SetattrRequest :=
  mkSetattrRequest valid (s_Size req) (s_Atime req) (s_Mtime req) (s_Mode req).

Definition with_Mode (req : SetattrRequest) (mode : Z) : SetattrRequest :=
  mkSetattrRequest (s_Valid req) (s_Size req) (s_Atime req) (s_Mtime req) mode.

Definition with_Atime (req : SetattrRequest) (atime : libkbfs.Time) : SetattrRequest :=
  mkSetattrRequest (s_Valid req) (s_Size req) atime (s_Mtime req) (s_Mode req).

End fuse.

(* ===================================================================== *)
(** ** The parent directory, as File uses it *)
(* ===================================================================== *)

Module Dir.

(** Modelled from the spec: dir.go is not part of the sources at hand.
    File calls two methods of its parent [*Dir]: path reconstruction
    (spec 4.2, pure) and path propagation (spec 4.3, which mutates the
    directory and its ancestors, and may panic like any Go call).  [D] is
    the state of the directory [f.parent] points to together with its
    ancestors. *)
Class Ops (D : Type) : Type := {
  getPathLocked : D -> libkbfs.Path;
  updatePathLocked : D -> libkbfs.Path -> option D
}.

(** Modelled from the spec: the Dir node of spec 3 and 4, as far as paths go.
    A directory owns its PathNode; the root of a folder has no parent and
    carries the folder's identity, every other directory has a parent. *)
Inductive Dir : Type :=
| Root (folder : libkbfs.DirId) (pathNode : libkbfs.PathNode)
| Sub (parent : Dir) (pathNode : libkbfs.PathNode).

(** Modelled from the spec: Dir path reconstruction, spec 4.2: "recursively
    asking the parent for its Path and appending this node's own PathNode". *)
Fixpoint Dir_getPathLocked (d : Dir) : libkbfs.Path :=
  match d with
  | Root folder n => libkbfs.mkPath folder [n]
  | Sub parent n =>
      let p := Dir_getPathLocked parent in
      libkbfs.mkPath (libkbfs.TopDir p) (libkbfs.Path_ p ++ [n])
  end.

(** Modelled from the spec: Dir path propagation, spec 4.3: a name mismatch
    drops the update; "otherwise: store the new PathNode, strip the last
    element, and recurse into the parent with the shortened Path,
    terminating at the root".  [None] is a run-time panic. *)
Fixpoint Dir_updatePathLocked (d : Dir) (p : libkbfs.Path) : option Dir :=
  match Go.index (libkbfs.Path_ p) (Go.len (libkbfs.Path_ p) - 1) with
  | None => None
  | Some pNode =>
      match d with
      | Root folder n =>
          if negb (String.eqb (libkbfs.Name n) (libkbfs.Name pNode)) then Some d
          else Some (Root folder pNode)
      | Sub parent n =>
          if negb (String.eqb (libkbfs.Name n) (libkbfs.Name pNode)) then Some d
          else
            match Go.slice_to (libkbfs.Path_ p) (Go.len (libkbfs.Path_ p) - 1) with
            | None => None
            | Some q =>
                match Dir_updatePathLocked parent (libkbfs.mkPath (libkbfs.TopDir p) q) with
                | None => None
                | Some parent' => Some (Sub parent' pNode)
                end
            end
      end
  end.

#[global] Instance Dir_Ops : Ops Dir :=
  {| getPathLocked := Dir_getPathLocked; updatePathLocked := Dir_updatePathLocked |}.

End Dir.

(* ===================================================================== *)
(** ** file.go *)
(* ===================================================================== *)

Module File.

Section Methods.

Context {Ctx D B : Type} {dirOps : Dir.Ops D} {kbfsOps : libkbfs.KBFSOps Ctx B}.

(** [type File struct { parent *Dir; pathNode libkbfs.PathNode }].  The
    pointer [parent] never changes; what it points to does, so the field
    holds the current state of that directory chain. *)
Record File : Type := mkFile { parent : D; pathNode : libkbfs.PathNode }.

(** What a method of [f] can read or change: [f] itself (with its parents),
    the backend, and the record of backend calls made so far. *)
Record State : Type := mkState {
  node : File;
  kbfs : B;
  calls : list libkbfs.Call
}.

Inductive outcome (A : Type) : Type :=
| Returns (a : A) (s : State)
| Panics (why : Go.panic).

Arguments Returns {A} a s.
Arguments Panics {A} why.

Definition M (A : Type) : Type := State -> outcome A.

Definition ret {A : Type} (a : A) : M A := fun s => Returns a s.

Definition bind {A C : Type} (m : M A) (k : A -> M C) : M C :=
  fun s => match m s with
           | Returns a s' => k a s'
           | Panics why => Panics why
           end.

Notation "x <- m ;; k" := (bind m (fun x => k))
  (at level 61, m at next level, right associativity).
Notation "' pat <- m ;; k" := (bind m (fun x => match x with pat => k end))
  (at level 61, pat pattern, m at next level, right associativity).
Notation "m ;; k" := (bind m (fun _ => k))
  (at level 61, right associativity).

(** Go's [if err != nil { return err }] around a step that otherwise goes
    on with a value: [inl e] leaves the method with [e]. *)
Notation "x <-? m ;; k" :=
  (bind m (fun r => match r with inl e => ret (Some e) | inr x => k end))
  (at level 61, m at next level, right associativity).

Definition panic {A : Type} (why : Go.panic) : M A := fun _ => Panics why.

Definition this : M File := fun s => Returns (node s) s.

(** [f.pathNode = n]. *)
Definition set_pathNode (n : libkbfs.PathNode) : M unit :=
  fun s => Returns tt (mkState (mkFile (parent (node s)) n) (kbfs s) (calls s)).

(** [s[i]] and [s[:hi]] with their run-time checks. *)
Definition index {A : Type} (s : list A) (i : Z) : M A :=
  match Go.index s i with
  | Some x => ret x
  | None => panic Go.IndexOutOfRange
  end.

Definition slice_to {A : Type} (s : list A) (hi : Z) : M (list A) :=
  match Go.slice_to s hi with
  | Some q => ret q
  | None => panic Go.SliceBoundsOutOfRange
  end.

Definition reslice (s : Go.bytes) (hi : Z) : M Go.bytes :=
  match Go.reslice s hi with
  | Some q => ret q
  | None => panic Go.SliceBoundsOutOfRange
  end.

(** [f.parent.updatePathLocked(p)]. *)
Definition parent_updatePathLocked (p : libkbfs.Path) : M unit :=
  fun s => match Dir.updatePathLocked (parent (node s)) p with
           | Some d => Returns tt (mkState (mkFile d (pathNode (node s))) (kbfs s) (calls s))
           | None => Panics Go.CalleePanic
           end.

(** The state after one backend call [c] that left the backend in [b]. *)
Definition called (s : State) (c : libkbfs.Call) (b : B) : State :=
  mkState (node s) b (calls s ++ [c]).

(** A call [f.parent.folder.fs.config.KBFSOps().Op(...)]: run the backend
    operation on the backend state and record the call. *)
Definition KBFSOps {A : Type} (c : libkbfs.Call) (op : B -> A * B) : M A :=
  fun s => let (r, b) := op (kbfs s) in Returns r (called s c b).

(** file.go:41.  Reads [f] and its parents, changes nothing. *)
Definition getPathLocked (f : File) : libkbfs.Path :=
  let p := Dir.getPathLocked (parent f) in
  libkbfs.mkPath (libkbfs.TopDir p) (libkbfs.Path_ p ++ [pathNode f]).

(** file.go:50.  [p] is passed by value: shortening [p.Path] is local. *)
Definition updatePathLocked (p : libkbfs.Path) : M unit :=
  pNode <- index (libkbfs.Path_ p) (Go.len (libkbfs.Path_ p) - 1) ;;
  f <- this ;;
  if negb (String.eqb (libkbfs.Name (pathNode f)) (libkbfs.Name pNode)) then
    ret tt
  else
    set_pathNode pNode ;;
    q <- slice_to (libkbfs.Path_ p) (Go.len (libkbfs.Path_ p) - 1) ;;
    parent_updatePathLocked (libkbfs.mkPath (libkbfs.TopDir p) q).

(** file.go:62 *)
Definition sync (ctx : Ctx) : M (option Go.error) :=
  f <- this ;;
  let p0 := getPathLocked f in
  '(p, err) <- KBFSOps (libkbfs.CallSync p0) (libkbfs.Sync ctx p0) ;;
  match err with
  | Some e => ret (Some e)
  | None => updatePathLocked p ;; ret None
  end.

Record FsyncRequest : Type := mkFsyncRequest { fs_Handle : Z; fs_Flags : Z; fs_Dir : bool }.
Record FlushRequest : Type := mkFlushRequest { fl_Handle : Z; fl_Flags : Z; fl_LockOwner : Z }.

(** file.go:76 *)
Definition Fsync (ctx : Ctx) (req : FsyncRequest) : M (option Go.error) :=
  sync ctx.

(** file.go:115 *)
Definition Flush (ctx : Ctx) (req : FlushRequest) : M (option Go.error) :=
  sync ctx.

(** Modelled from the spec: statPath is not part of the sources at hand.
    Spec 4.4: Attr goes "reconstruct Path -> Backend.Stat(Path)". *)
Definition statPath (ctx : Ctx) (p : libkbfs.Path) : M (libkbfs.DirEntry * option Go.error) :=
  KBFSOps (libkbfs.CallStat p) (libkbfs.Stat ctx p).

(** Modelled from the spec: fillAttr is not part of the sources at hand.
    Spec 4.4: "size and timestamps copied verbatim from the stat result". *)
Definition fillAttr (de : libkbfs.DirEntry) (a : fuse.Attr) : fuse.Attr :=
  fuse.mkAttr (fuse.Inode a) (libkbfs.Size de) (fuse.Blocks a) (fuse.Atime a)
    (libkbfs.Mtime de) (libkbfs.Ctime de) (fuse.Mode a) (fuse.Nlink a)
    (fuse.Uid a) (fuse.Gid a).

(** [a.Mode = m] and [a.Mode |= m]. *)
Definition set_Mode (a : fuse.Attr) (m : Z) : fuse.Attr :=
  fuse.mkAttr (fuse.Inode a) (fuse.Size a) (fuse.Blocks a) (fuse.Atime a)
    (fuse.Mtime a) (fuse.Ctime a) m (fuse.Nlink a) (fuse.Uid a) (fuse.Gid a).

(** file.go:23.  [a] is the caller's record, filled in place; the result
    pairs what it holds afterwards with the returned error. *)
Definition Attr (ctx : Ctx) (a : fuse.Attr) : M (fuse.Attr * option Go.error) :=
  f <- this ;;
  let p := getPathLocked f in
  '(de, err) <- statPath ctx p ;;
  match err with
  | Some e => ret (a, Some e)
  | None =>
      let a := fillAttr de a in
      let a := set_Mode a (Go.octal [6;4;4]) in
      let a := if libkbfs.EntryType_eqb (libkbfs.Type_ de) libkbfs.Exec
               then set_Mode a (Z.lor (fuse.Mode a) (Go.octal [1;1;1])) else a in
      ret (a, None)
  end.

(** file.go:85.  The buffer handed to the backend is [resp.Data] stretched
    to its capacity; both share one array, so what the backend stores shows
    through [resp.Data]. *)
Definition Read (ctx : Ctx) (req : fuse.ReadRequest) (resp : fuse.ReadResponse)
  : M (fuse.ReadResponse * option Go.error) :=
  f <- this ;;
  let p := getPathLocked f in
  buf <- reslice (fuse.r_Data resp) (Go.cap (fuse.r_Data resp)) ;;
  '(stored, n, err) <- KBFSOps (libkbfs.CallRead p (Go.slen buf) (fuse.r_Offset req))
                         (libkbfs.Read ctx p (Go.contents buf) (fuse.r_Offset req)) ;;
  let data := Go.mkBytes (Go.overwrite (Go.backing (fuse.r_Data resp)) stored)
                (Go.slen (fuse.r_Data resp)) in
  data <- reslice data n ;;
  ret (fuse.mkReadResponse data, err).

(** file.go:99 *)
Definition Write (ctx : Ctx) (req : fuse.WriteRequest) (resp : fuse.WriteResponse)
  : M (fuse.WriteResponse * option Go.error) :=
  f <- this ;;
  let p := getPathLocked f in
  err <- KBFSOps (libkbfs.CallWrite p (fuse.w_Data req) (fuse.w_Offset req))
           (libkbfs.Write ctx p (fuse.w_Data req) (fuse.w_Offset req)) ;;
  match err with
  | Some e => ret (resp, Some e)
  | None => ret (fuse.mkWriteResponse (Go.len (fuse.w_Data req)), None)
  end.

(** file.go:129-135: the size field. *)
Definition Setattr_size (ctx : Ctx) (req : fuse.SetattrRequest) (valid : Z)
  : M (Go.error + Z) :=
  if fuse.has valid fuse.SetattrSize then
    f <- this ;;
    let p := getPathLocked f in
    err <- KBFSOps (libkbfs.CallTruncate p (fuse.s_Size req))
             (libkbfs.Truncate ctx p (fuse.s_Size req)) ;;
    match err with
    | Some e => ret (inl e)
    | None => ret (inr (fuse.clear valid fuse.SetattrSize))
    end
  else ret (inr valid).

(** file.go:137-147: the mode field. *)
Definition Setattr_mode (ctx : Ctx) (req : fuse.SetattrRequest) (valid : Z)
  : M (Go.error + Z) :=
  if fuse.has valid fuse.SetattrMode then
    let exec := negb (Z.land (fuse.s_Mode req) (Go.octal [1;0;0]) =? 0) in
    f <- this ;;
    let p0 := getPathLocked f in
    '(p, err) <- KBFSOps (libkbfs.CallSetEx p0 exec) (libkbfs.SetEx ctx p0 exec) ;;
    match err with
    | Some e => ret (inl e)
    | None => updatePathLocked p ;; ret (inr (fuse.clear valid fuse.SetattrMode))
    end
  else ret (inr valid).

(** file.go:149-157: the modification time. *)
Definition Setattr_mtime (ctx : Ctx) (req : fuse.SetattrRequest) (valid : Z)
  : M (Go.error + Z) :=
  if fuse.has valid fuse.SetattrMtime then
    f <- this ;;
    let p0 := getPathLocked f in
    '(p, err) <- KBFSOps (libkbfs.CallSetMtime p0 (fuse.s_Mtime req))
                   (libkbfs.SetMtime ctx p0 (fuse.s_Mtime req)) ;;
    match err with
    | Some e => ret (inl e)
    | None => updatePathLocked p ;; ret (inr (fuse.clear valid fuse.SetattrMtime))
    end
  else ret (inr valid).

(** file.go:124.  [resp] is never touched and is left out, and so is the
    log line written before ENOSYS is returned. *)
Definition Setattr (ctx : Ctx) (req : fuse.SetattrRequest) : M (option Go.error) :=
  let valid := fuse.s_Valid req in
  valid <-? Setattr_size ctx req valid ;;
  valid <-? Setattr_mode ctx req valid ;;
  valid <-? Setattr_mtime ctx req valid ;;
  let valid := fuse.clear valid fuse.SetattrAtime in
  let valid := fuse.clear valid (Z.lor fuse.SetattrLockOwner fuse.SetattrHandle) in
  if negb (valid =? 0) then ret (Some fuse.ENOSYS) else ret None.

(** The fields Setattr takes care of: the bits it removes from [valid]
    before its last test (file.go:134, 146, 156, 160, 163). *)
Definition handled : Z :=
  Z.lor fuse.SetattrSize
    (Z.lor fuse.SetattrMode
       (Z.lor fuse.SetattrMtime
          (Z.lor fuse.SetattrAtime (Z.lor fuse.SetattrLockOwner fuse.SetattrHandle)))).

(** The requested fields Setattr does not know. *)
Definition unhandled (valid : Z) : Z := Z.ldiff valid handled.

End Methods.

Arguments Returns {D B A} a s.
Arguments Panics {D B A} why.

End File.

(* ===================================================================== *)
(** ** Rename across roots *)
(* ===================================================================== *)

Module mount.

(** A name under the mount point: the root it lies under (a top-level
    folder such as [jdoe] or [wsmith,jdoe]) and the entry below it. *)
Record Loc : Type := mkLoc { root : string; entry : string }.

(** The name [path.Join(mnt.Dir, root, entry)] gives for the clean,
    non-empty names the tests use: the elements joined by slashes.  No
    cleaning of empty elements, dots or doubled slashes is modelled. *)
Definition pathname (mnt : string) (l : Loc) : string :=
  (mnt ++ "/" ++ root l ++ "/" ++ entry l)%string.

(** [os.LinkError]. *)
Record LinkError : Type := mkLinkError {
  Op : string;
  Old : string;
  New : string;
  Err : Go.error
}.

(** [syscall.EXDEV]. *)
Definition EXDEV : Go.error := Go.Errno 18.

Section Rename.

Context {B : Type}.

(** The backend's rename inside one root. *)
Variable KBFSOps_Rename : Loc -> Loc -> B -> option Go.error * B.

Record State : Type := mkState { kbfs : B; calls : list (Loc * Loc) }.

(** Modelled from the spec: the rename path lives in dir.go, which is not
    part of the sources at hand; mount_test.go only observes it.  Spec 7:
    "Cross-root rename is rejected locally - without ever calling the
    Backend - as a link-style error carrying the operation name, both
    paths, and a cross-device error code."  Inside one root the backend
    decides. *)
Definition Rename (mnt : string) (old new : Loc) (s : State)
  : option LinkError * State :=
  if negb (String.eqb (root old) (root new)) then
    (Some (mkLinkError "rename" (pathname mnt old) (pathname mnt new) EXDEV), s)
  else
    let (err, b) := KBFSOps_Rename old new (kbfs s) in
    (option_map (mkLinkError "rename" (pathname mnt old) (pathname mnt new)) err,
     mkState b (calls s ++ [(old, new)])).

End Rename.

End mount.

(* ===================================================================== *)
(** ** An in-memory backend *)
(* ===================================================================== *)

(** A small stand-in for the backend, in the role
    [libkbfs.MakeTestConfigOrBust] plays in mount_test.go: one file, whose
    every mutation yields a path with fresh block pointers.  It is used to
    run the methods on concrete inputs. *)
Module memfs.

Record FS : Type := mkFS {
  data : list byte;
  exec : bool;
  mtime : libkbfs.Time;
  version : Z;
  failing : option Go.error    (* when set, every operation fails with it *)
}.

Definition repoint (v : Z) (p : libkbfs.Path) : libkbfs.Path :=
  libkbfs.mkPath (libkbfs.TopDir p)
    (map (fun n => libkbfs.mkPathNode v (libkbfs.Name n)) (libkbfs.Path_ p)).

Definition entryOf (b : FS) : libkbfs.DirEntry :=
  libkbfs.mkDirEntry (if exec b then libkbfs.Exec else libkbfs.File_)
    (Go.len (data b)) (mtime b) (mtime b).

Definition mutate (p : libkbfs.Path) (b : FS) (f : FS -> FS)
  : (libkbfs.Path * option Go.error) * FS :=
  match failing b with
  | Some e => ((p, Some e), b)
  | None =>
      let b' := f b in
      let v := version b + 1 in
      ((repoint v p, None), mkFS (data b') (exec b') (mtime b') v None)
  end.

Definition resize (size : Z) (l : list byte) : list byte :=
  firstn (Z.to_nat size) (l ++ repeat x00 (Z.to_nat size - List.length l)%nat).

#[global] Instance ops : libkbfs.KBFSOps unit FS := {|
  libkbfs.Stat := fun _ p b =>
    match failing b with
    | Some e => ((entryOf b, Some e), b)
    | None => ((entryOf b, None), b)
    end;
  libkbfs.Read := fun _ p buf off b =>
    match failing b with
    | Some e => (([], 0, Some e), b)
    | None =>
        let out := firstn (List.length buf) (skipn (Z.to_nat off) (data b)) in
        ((out, Go.len out, None), b)
    end;
  libkbfs.Write := fun _ p bytes off b =>
    match failing b with
    | Some e => (Some e, b)
    | None =>
        let o := Z.to_nat off in
        let d := resize (Z.max (Go.len (data b)) (off + Go.len bytes)) (data b) in
        (None, mkFS (firstn o d ++ bytes ++ skipn (o + List.length bytes) d)
                 (exec b) (mtime b) (version b) None)
    end;
  libkbfs.Truncate := fun _ p size b =>
    match failing b with
    | Some e => (Some e, b)
    | None => (None, mkFS (resize size (data b)) (exec b) (mtime b) (version b) None)
    end;
  libkbfs.SetEx := fun _ p ex b =>
    mutate p b (fun b => mkFS (data b) ex (mtime b) (version b) (failing b));
  libkbfs.SetMtime := fun _ p t b =>
    mutate p b (fun b => mkFS (data b) (exec b) t (version b) (failing b));
  libkbfs.Sync := fun _ p b => mutate p b (fun b => b)
|}.

(** A store of whole files by location, for renames. *)
Definition Store := list (mount.Loc * list byte).

Definition Loc_eqb (a b : mount.Loc) : bool :=
  String.eqb (mount.root a) (mount.root b) && String.eqb (mount.entry a) (mount.entry b).

Fixpoint lookup (st : Store) (l : mount.Loc) : option (list byte) :=
  match st with
  | [] => None
  | (k, v) :: rest => if Loc_eqb k l then Some v else lookup rest l
  end.

Definition remove (st : Store) (l : mount.Loc) : Store :=
  filter (fun kv => negb (Loc_eqb (fst kv) l)) st.

Definition Rename (old new : mount.Loc) (st : Store) : option Go.error * Store :=
  match lookup st old with
  | None => (Some (Go.Errno 2), st)
  | Some v => (None, (new, v) :: remove (remove st old) new)
  end.

End memfs.

(* ===================================================================== *)
(** ** Concrete nodes and requests *)
(* ===================================================================== *)

(** The file [jdoe/myfile] of mount_test.go on the in-memory backend. *)
Module Sample.

Definition hello : list byte := list_byte_of_string "hello, world" ++ [x0a].

Definition jdoe : Dir.Dir := Dir.Root 1 (libkbfs.mkPathNode 10 "jdoe").

Definition myfile : @File.File Dir.Dir :=
  File.mkFile jdoe (libkbfs.mkPathNode 11 "myfile").

Definition disk (ex : bool) (failing : option Go.error) : memfs.FS :=
  memfs.mkFS hello ex 0 0 failing.

Definition state (ex : bool) (failing : option Go.error) : @File.State Dir.Dir memfs.FS :=
  File.mkState myfile (disk ex failing) [].

(** [EIO], the error the failing backend reports. *)
Definition EIO : Go.error := Go.Errno 5.

(** The Path the backend hands back once [myfile] moved to version [v]. *)
Definition path (v : Z) : libkbfs.Path :=
  libkbfs.mkPath 1 [libkbfs.mkPathNode v "jdoe"; libkbfs.mkPathNode v "myfile"].

Definition attr0 : fuse.Attr := fuse.mkAttr 7 0 0 0 0 0 0 1 1000 1000.

Definition setattr (valid mode : Z) : fuse.SetattrRequest :=
  fuse.mkSetattrRequest valid 5 0 1420167845000000006 mode.

End Sample.

(* ===================================================================== *)
(** ** Backend operations by kind *)
(* ===================================================================== *)

Module Calls.

Inductive Op : Type :=
| OpStat | OpRead | OpWrite | OpTruncate | OpSetEx | OpSetMtime | OpSync.

(** Which operation a recorded call is. *)
Definition op (c : libkbfs.Call) : Op :=
  match c with
  | libkbfs.CallStat _ => OpStat
  | libkbfs.CallRead _ _ _ => OpRead
  | libkbfs.CallWrite _ _ _ => OpWrite
  | libkbfs.CallTruncate _ _ => OpTruncate
  | libkbfs.CallSetEx _ _ => OpSetEx
  | libkbfs.CallSetMtime _ _ => OpSetMtime
  | libkbfs.CallSync _ => OpSync
  end.

(** The backend operations a Setattr request with [valid] asks for, in the
    order file.go gets to them (file.go:129, 137, 149). *)
Definition requested (valid : Z) : list Op :=
  (if fuse.has valid fuse.SetattrSize then [OpTruncate] else [])
  ++ (if fuse.has valid fuse.SetattrMode then [OpSetEx] else [])
  ++ (if fuse.has valid fuse.SetattrMtime then [OpSetMtime] else []).

(** The three backend calls a Setattr can make, with their arguments. *)
Inductive Mutation : Type :=
| Truncate (p : libkbfs.Path) (size : Z)
| SetEx (p : libkbfs.Path) (ex : bool)
| SetMtime (p : libkbfs.Path) (mtime : libkbfs.Time).

(** How such a call is recorded. *)
Definition call (m : Mutation) : libkbfs.Call :=
  match m with
  | Truncate p size => libkbfs.CallTruncate p size
  | SetEx p ex => libkbfs.CallSetEx p ex
  | SetMtime p mtime => libkbfs.CallSetMtime p mtime
  end.

Section Replay.

Context {Ctx B : Type} {kbfsOps : libkbfs.KBFSOps Ctx B}.

(** What the backend in state [b] answers to the call: its error result and
    the state it is in afterwards. *)
Definition answer (ctx : Ctx) (m : Mutation) (b : B) : option Go.error * B :=
  match m with
  | Truncate p size => libkbfs.Truncate ctx p size b
  | SetEx p ex => (snd (fst (libkbfs.SetEx ctx p ex b)), snd (libkbfs.SetEx ctx p ex b))
  | SetMtime p mtime =>
      (snd (fst (libkbfs.SetMtime ctx p mtime b)), snd (libkbfs.SetMtime ctx p mtime b))
  end.

(** The calls made one after the other from backend state [b]: the error
    result of each, and the backend's last state. *)
Fixpoint replay (ctx : Ctx) (l : list Mutation) (b : B) : list (option Go.error) * B :=
  match l with
  | [] => ([], b)
  | m :: rest =>
      let (e, b1) := answer ctx m b in
      let (es, b2) := replay ctx rest b1 in
      (e :: es, b2)
  end.

End Replay.

(** [s'] comes after [s]: the node still goes by the same name and the
    record of backend calls has only grown. *)
Definition follows {D B : Type} (s s' : @File.State D B) : Prop :=
  libkbfs.Name (File.pathNode (File.node s')) = libkbfs.Name (File.pathNode (File.node s))
  /\ exists l, File.calls s' = File.calls s ++ l.

End Calls.

(* ===================================================================== *)
(** ** mount_test.go: the directory check *)
(* ===================================================================== *)

Module testutil.

(** What the checks read of an [os.FileInfo]. *)
Record FileInfo : Type := mkFileInfo {
  fi_Name : string;
  fi_Size : Z;
  fi_Mode : Z;
  fi_IsDir : bool
}.

(** [type fileInfoCheck func(fi os.FileInfo) error]; a nil func is [None]. *)
Definition fileInfoCheck : Type := FileInfo -> option Go.error.

(** mount_test.go:35.  The message also prints [fi]; only its being an
    error matters here. *)
Definition mustBeDir : fileInfoCheck :=
  fun fi => if negb (fi_IsDir fi) then Some (Go.ErrorString "not a directory") else None.

(** [map[string]fileInfoCheck], as the list of its entries: a lookup finds
    the entry of a key, [delete] removes the key. *)
Definition Want : Type := list (string * option fileInfoCheck).

Fixpoint lookup (want : Want) (k : string) : option (option fileInfoCheck) :=
  match want with
  | [] => None
  | (k', v) :: rest => if String.eqb k' k then Some v else lookup rest k
  end.

Definition delete (want : Want) (k : string) : Want :=
  filter (fun kv => negb (String.eqb (fst kv) k)) want.

Definition keys (want : Want) : list string := map fst want.

(** What [t.Errorf] is called with. *)
Inductive Report : Type :=
| CheckFailed (name : string) (err : Go.error)
| UnexpectedDirentry (name : string) (size mode : Z)
| NeverSaw (filename : string).

(** mount_test.go:56-70: the loop over the listing, then the loop over what
    is left of [want] (whose order Go leaves open). *)
Fixpoint checkDir_entries (fis : list FileInfo) (want : Want) : list Report :=
  match fis with
  | [] => map NeverSaw (keys want)
  | fi :: rest =>
      match lookup want (fi_Name fi) with
      | Some check =>
          let want := delete want (fi_Name fi) in
          match check with
          | Some chk =>
              match chk fi with
              | Some err => CheckFailed (fi_Name fi) err :: checkDir_entries rest want
              | None => checkDir_entries rest want
              end
          | None => checkDir_entries rest want
          end
      | None =>
          UnexpectedDirentry (fi_Name fi) (fi_Size fi) (fi_Mode fi)
          :: checkDir_entries rest want
      end
  end.

Inductive Outcome : Type :=
| Fatal (err : Go.error)
| Errors (reports : list Report).

(** mount_test.go:42.  [listing] is what [ioutil.ReadDir(dir)] returned.
    The function works on its own copy of [want]. *)
Definition checkDir (listing : list FileInfo * option Go.error) (want : Want) : Outcome :=
  let (fis, err) := listing in
  match err with
  | Some e => Fatal e
  | None => Errors (checkDir_entries fis want)
  end.

(** A listed entry passes the check its name is mapped to. *)
Definition passes (check : option fileInfoCheck) (fi : FileInfo) : Prop :=
  match check with
  | Some chk => chk fi = None
  | None => True
  end.

End testutil.

(* ===================================================================== *)
(** ** A backend that answers with an empty Path *)
(* ===================================================================== *)

Module hollow.

(** The in-memory backend, except that the Path its mutations return has no
    element. *)
Definition strip (r : (libkbfs.Path * option Go.error) * memfs.FS)
  : (libkbfs.Path * option Go.error) * memfs.FS :=
  let '((p, err), b) := r in ((libkbfs.mkPath (libkbfs.TopDir p) [], err), b).

Definition ops : libkbfs.KBFSOps unit memfs.FS := {|
  libkbfs.Stat := @libkbfs.Stat unit memfs.FS memfs.ops;
  libkbfs.Read := @libkbfs.Read unit memfs.FS memfs.ops;
  libkbfs.Write := @libkbfs.Write unit memfs.FS memfs.ops;
  libkbfs.Truncate := @libkbfs.Truncate unit memfs.FS memfs.ops;
  libkbfs.SetEx := fun c p ex b => strip (@libkbfs.SetEx unit memfs.FS memfs.ops c p ex b);
  libkbfs.SetMtime := fun c p t b =>
    strip (@libkbfs.SetMtime unit memfs.FS memfs.ops c p t b);
  libkbfs.Sync := fun c p b => strip (@libkbfs.Sync unit memfs.FS memfs.ops c p b)
|}.

End hollow.

(* ===================================================================== *)
(** ** Facts about the run-time operations *)
(* ===================================================================== *)

Module GoFacts.

Lemma len_app {A : Type} (q : list A) (x : A) : Go.len (q ++ [x]) - 1 = Go.len q.
Proof.
  unfold Go.len. rewrite length_app. simpl. lia.
Qed.

Lemma len_nonneg {A : Type} (s : list A) : 0 <= Go.len s.
Proof. unfold Go.len. lia. Qed.

Lemma index_last {A : Type} (q : list A) (x : A) :
  Go.index (q ++ [x]) (Go.len (q ++ [x]) - 1) = Some x.
Proof.
  rewrite len_app. unfold Go.index.
  assert (H : (0 <=? Go.len q) && (Go.len q <? Go.len (q ++ [x])) = true).
  { apply andb_true_intro. split.
    - apply Z.leb_le, len_nonneg.
    - apply Z.ltb_lt. pose proof (len_app q x). lia. }
  rewrite H. unfold Go.len. rewrite Nat2Z.id.
  rewrite nth_error_app2 by lia. rewrite Nat.sub_diag. reflexivity.
Qed.

Lemma slice_to_last {A : Type} (q : list A) (x : A) :
  Go.slice_to (q ++ [x]) (Go.len (q ++ [x]) - 1) = Some q.
Proof.
  rewrite len_app. unfold Go.slice_to.
  assert (H : (0 <=? Go.len q) && (Go.len q <=? Go.len (q ++ [x])) = true).
  { apply andb_true_intro. split.
    - apply Z.leb_le, len_nonneg.
    - apply Z.leb_le. pose proof (len_app q x). lia. }
  rewrite H. unfold Go.len. rewrite Nat2Z.id.
  rewrite firstn_app, Nat.sub_diag, firstn_all. simpl. now rewrite app_nil_r.
Qed.

Lemma index_empty {A : Type} : Go.index (@nil A) (Go.len (@nil A) - 1) = None.
Proof. reflexivity. Qed.

(** A non-empty slice is its front followed by its last element. *)
Lemma nonempty_snoc {A : Type} (s : list A) :
  s <> [] -> exists q x, s = q ++ [x].
Proof.
  intros H. destruct (exists_last H) as (q & x & E). now exists q, x.
Qed.

Lemma contents_full (s : Go.bytes) :
  Go.reslice s (Go.cap s) = Some (Go.mkBytes (Go.backing s) (Go.cap s))
  /\ Go.contents (Go.mkBytes (Go.backing s) (Go.cap s)) = Go.backing s.
Proof.
  split.
  - unfold Go.reslice.
    assert (H : (0 <=? Go.cap s) && (Go.cap s <=? Go.cap s) = true).
    { apply andb_true_intro. split; apply Z.leb_le; [apply len_nonneg | lia]. }
    now rewrite H.
  - unfold Go.contents, Go.cap, Go.len. simpl. rewrite Nat2Z.id. apply firstn_all.
Qed.

Lemma overwrite_length (buf out : list byte) :
  List.length (Go.overwrite buf out) = List.length buf.
Proof.
  unfold Go.overwrite. rewrite length_firstn, length_app, length_skipn. lia.
Qed.

End GoFacts.

(* ===================================================================== *)
(** ** Path propagation *)
(* ===================================================================== *)

Module Propagation.

Section Facts.

Context {Ctx D B : Type} {dirOps : Dir.Ops D} {kbfsOps : libkbfs.KBFSOps Ctx B}.

Abbreviation State := (@File.State D B).

(** Path propagation on a Path that ends in [pNode], as one equation. *)
Lemma updatePathLocked_spec :
  forall (s : State) (top : libkbfs.DirId) (q : list libkbfs.PathNode)
         (pNode : libkbfs.PathNode),
    File.updatePathLocked (libkbfs.mkPath top (q ++ [pNode])) s =
    if String.eqb (libkbfs.Name (File.pathNode (File.node s))) (libkbfs.Name pNode)
    then match Dir.updatePathLocked (File.parent (File.node s)) (libkbfs.mkPath top q) with
         | Some d => File.Returns tt
                       (File.mkState (File.mkFile d pNode) (File.kbfs s) (File.calls s))
         | None => File.Panics Go.CalleePanic
         end
    else File.Returns tt s.
Proof.
  intros s top q pNode.
  unfold File.updatePathLocked, File.bind, File.index, File.slice_to. simpl.
  rewrite GoFacts.index_last. unfold File.ret at 1. unfold File.this.
  destruct (String.eqb _ _) eqn:E; simpl.
  - rewrite GoFacts.slice_to_last. unfold File.ret, File.parent_updatePathLocked. simpl.
    reflexivity.
  - reflexivity.
Qed.

(** C1. Path propagation on a Path whose last element is [pNode]: when the
    node's remembered name differs from [pNode]'s, the call returns with the
    state exactly as it was (own PathNode and parent untouched); when the
    names agree, the node's PathNode becomes [pNode] and the parent's
    propagation runs on the Path without its last element. *)
Theorem updatePathLocked_last :
  forall (s : State) (top : libkbfs.DirId) (q : list libkbfs.PathNode)
         (pNode : libkbfs.PathNode),
    (libkbfs.Name (File.pathNode (File.node s)) <> libkbfs.Name pNode ->
     File.updatePathLocked (libkbfs.mkPath top (q ++ [pNode])) s = File.Returns tt s)
    /\
    (libkbfs.Name (File.pathNode (File.node s)) = libkbfs.Name pNode ->
     File.updatePathLocked (libkbfs.mkPath top (q ++ [pNode])) s =
     match Dir.updatePathLocked (File.parent (File.node s)) (libkbfs.mkPath top q) with
     | Some d => File.Returns tt
                   (File.mkState (File.mkFile d pNode) (File.kbfs s) (File.calls s))
     | None => File.Panics Go.CalleePanic
     end).
Proof.
  intros s top q pNode. rewrite updatePathLocked_spec.
  destruct (String.eqb_spec (libkbfs.Name (File.pathNode (File.node s)))
              (libkbfs.Name pNode)) as [E | E].
  - split; [intros H; contradiction | reflexivity].
  - split; [reflexivity | intros H; contradiction].
Qed.

(** C9. Path propagation needs a non-empty Path: on one, reading the
    trailing element and stripping it are both in bounds, so the call never
    raises a bounds panic of its own; on an empty Path the read of the
    trailing element is out of range and the call panics. *)
Theorem updatePathLocked_bounds :
  forall (p : libkbfs.Path) (s : State),
    libkbfs.Path_ p <> [] ->
    (exists pNode q,
        libkbfs.Path_ p = q ++ [pNode] /\
        Go.index (libkbfs.Path_ p) (Go.len (libkbfs.Path_ p) - 1) = Some pNode /\
        Go.slice_to (libkbfs.Path_ p) (Go.len (libkbfs.Path_ p) - 1) = Some q) /\
    File.updatePathLocked p s <> File.Panics Go.IndexOutOfRange /\
    File.updatePathLocked p s <> File.Panics Go.SliceBoundsOutOfRange /\
    (forall top, File.updatePathLocked (libkbfs.mkPath top []) s
                 = File.Panics Go.IndexOutOfRange).
Proof.
  intros [top l] s Hne. simpl in *.
  destruct (GoFacts.nonempty_snoc l Hne) as (q & pNode & ->).
  split; [|split; [|split]].
  - exists pNode, q. split; [reflexivity|].
    split; [apply GoFacts.index_last | apply GoFacts.slice_to_last].
  - rewrite updatePathLocked_spec.
    destruct (String.eqb _ _); [destruct (Dir.updatePathLocked _ _)|]; discriminate.
  - rewrite updatePathLocked_spec.
    destruct (String.eqb _ _); [destruct (Dir.updatePathLocked _ _)|]; discriminate.
  - intros top'. reflexivity.
Qed.

End Facts.

Lemma updatePathLocked_bounds_witness :
  libkbfs.Path_ (Sample.path 1) <> [] /\
  File.updatePathLocked (Sample.path 1) (Sample.state false None)
    <> File.Panics Go.IndexOutOfRange /\
  File.updatePathLocked (libkbfs.mkPath 1 []) (Sample.state false None)
    = File.Panics Go.IndexOutOfRange.
Proof.
  assert (H : libkbfs.Path_ (Sample.path 1) <> []) by discriminate.
  split; [exact H|].
  destruct (updatePathLocked_bounds (Sample.path 1) (Sample.state false None) H)
    as (_ & Hi & _ & He).
  split; [exact Hi | exact (He 1)].
Defined.

Lemma updatePathLocked_last_witness :
  File.updatePathLocked
    (libkbfs.mkPath 1 ([libkbfs.mkPathNode 2 "jdoe"] ++ [libkbfs.mkPathNode 2 "other"]))
    (Sample.state false None)
  = File.Returns tt (Sample.state false None)
  /\
  File.updatePathLocked
    (libkbfs.mkPath 1 ([libkbfs.mkPathNode 2 "jdoe"] ++ [libkbfs.mkPathNode 2 "myfile"]))
    (Sample.state false None)
  = File.Returns tt
      (File.mkState
         (File.mkFile (Dir.Root 1 (libkbfs.mkPathNode 2 "jdoe"))
            (libkbfs.mkPathNode 2 "myfile"))
         (Sample.disk false None) []).
Proof.
  split.
  - apply (proj1 (updatePathLocked_last (Sample.state false None) 1
                    [libkbfs.mkPathNode 2 "jdoe"] (libkbfs.mkPathNode 2 "other"))).
    simpl. discriminate.
  - rewrite (proj2 (updatePathLocked_last (Sample.state false None) 1
                      [libkbfs.mkPathNode 2 "jdoe"] (libkbfs.mkPathNode 2 "myfile"))
               eq_refl).
    reflexivity.
Defined.

End Propagation.

(* ===================================================================== *)
(** ** The operations of a File node *)
(* ===================================================================== *)

Module Operations.

(** Unfold the sequencing of one method down to its backend call. *)
Ltac run :=
  unfold File.statPath; unfold File.bind, File.KBFSOps, File.this, File.ret; simpl.

Section Facts.

Context {Ctx D B : Type} {dirOps : Dir.Ops D} {kbfsOps : libkbfs.KBFSOps Ctx B}.

Abbreviation State := (@File.State D B).

(** The mode Attr reports is one of two values. *)
Lemma mode_bits (ex : bool) :
  let m := if ex then Z.lor (Go.octal [6;4;4]) (Go.octal [1;1;1]) else Go.octal [6;4;4] in
  m = (if ex then Go.octal [7;5;5] else Go.octal [6;4;4]) /\
  Z.testbit m 6 = ex /\ Z.testbit m 3 = ex /\ Z.testbit m 0 = ex /\
  Z.ldiff m (Go.octal [1;1;1]) = Go.octal [6;4;4].
Proof.
  destruct ex; vm_compute; repeat split; reflexivity.
Qed.

(** Attr as one equation: it stats the reconstructed Path and, without an
    error, fills the caller's record. *)
Lemma Attr_spec (ctx : Ctx) (a : fuse.Attr) (s : State) :
  File.Attr ctx a s =
  let p := File.getPathLocked (File.node s) in
  let '((de, err), b) := libkbfs.Stat ctx p (File.kbfs s) in
  match err with
  | Some e => File.Returns (a, Some e) (File.called s (libkbfs.CallStat p) b)
  | None =>
      File.Returns
        (fuse.mkAttr (fuse.Inode a) (libkbfs.Size de) (fuse.Blocks a) (fuse.Atime a)
           (libkbfs.Mtime de) (libkbfs.Ctime de)
           (if libkbfs.EntryType_eqb (libkbfs.Type_ de) libkbfs.Exec
            then Z.lor (Go.octal [6;4;4]) (Go.octal [1;1;1]) else Go.octal [6;4;4])
           (fuse.Nlink a) (fuse.Uid a) (fuse.Gid a), None)
        (File.called s (libkbfs.CallStat p) b)
  end.
Proof.
  unfold File.Attr. run.
  destruct (libkbfs.Stat ctx _ (File.kbfs s)) as [[de [e|]] b]; simpl; [reflexivity|].
  destruct (libkbfs.EntryType_eqb _ _); reflexivity.
Qed.

(** C2. A successful Attr reports mode 0644, or 0755 exactly when the stat
    result is an executable: the three execute bits are set together if and
    only if the backend's entry carries the executable type, every other
    permission bit is that of 0644, and size and timestamps are those of the
    stat result. *)
Theorem Attr_success :
  forall (ctx : Ctx) (a a' : fuse.Attr) (s s' : State),
    File.Attr ctx a s = File.Returns (a', None) s' ->
    exists de b,
      libkbfs.Stat ctx (File.getPathLocked (File.node s)) (File.kbfs s) = ((de, None), b) /\
      fuse.Mode a' = (if libkbfs.EntryType_eqb (libkbfs.Type_ de) libkbfs.Exec
                      then Go.octal [7;5;5] else Go.octal [6;4;4]) /\
      Z.testbit (fuse.Mode a') 6 = libkbfs.EntryType_eqb (libkbfs.Type_ de) libkbfs.Exec /\
      Z.testbit (fuse.Mode a') 3 = libkbfs.EntryType_eqb (libkbfs.Type_ de) libkbfs.Exec /\
      Z.testbit (fuse.Mode a') 0 = libkbfs.EntryType_eqb (libkbfs.Type_ de) libkbfs.Exec /\
      Z.ldiff (fuse.Mode a') (Go.octal [1;1;1]) = Go.octal [6;4;4] /\
      fuse.Size a' = libkbfs.Size de /\
      fuse.Mtime a' = libkbfs.Mtime de /\
      fuse.Ctime a' = libkbfs.Ctime de.
Proof.
  intros ctx a a' s s' H. rewrite Attr_spec in H. cbv zeta in H.
  destruct (libkbfs.Stat ctx _ (File.kbfs s)) as [[de [e|]] b]; [discriminate|].
  injection H as Ha _. subst a'. exists de, b. simpl.
  split; [reflexivity|].
  pose proof (mode_bits (libkbfs.EntryType_eqb (libkbfs.Type_ de) libkbfs.Exec)) as M.
  cbv zeta in M. destruct M as (M1 & M2 & M3 & M4 & M5).
  repeat split; assumption.
Qed.

(** sync as one equation. *)
Lemma sync_spec (ctx : Ctx) (s : State) :
  File.sync ctx s =
  let p0 := File.getPathLocked (File.node s) in
  let '((p, err), b) := libkbfs.Sync ctx p0 (File.kbfs s) in
  match err with
  | Some e => File.Returns (Some e) (File.called s (libkbfs.CallSync p0) b)
  | None =>
      match File.updatePathLocked p (File.called s (libkbfs.CallSync p0) b) with
      | File.Returns _ s2 => File.Returns None s2
      | File.Panics why => File.Panics why
      end
  end.
Proof.
  unfold File.sync. run.
  destruct (libkbfs.Sync ctx _ (File.kbfs s)) as [[p [e|]] b]; simpl; [reflexivity|].
  destruct (File.updatePathLocked p _); reflexivity.
Qed.

(** C6. Fsync and Flush are the same commit: both run [sync], which calls
    the backend's Sync on the reconstructed Path; without an error the
    returned Path goes through path propagation, and with an error that
    error is returned and the node is left as it was. *)
Theorem Fsync_Flush_commit :
  forall (ctx : Ctx) (rq : File.FsyncRequest) (rl : File.FlushRequest) (s : State)
         (p : libkbfs.Path) (err : option Go.error) (b : B),
    libkbfs.Sync ctx (File.getPathLocked (File.node s)) (File.kbfs s) = ((p, err), b) ->
    let s1 := File.called s (libkbfs.CallSync (File.getPathLocked (File.node s))) b in
    File.Fsync ctx rq s = File.Flush ctx rl s /\
    File.Flush ctx rl s = File.sync ctx s /\
    File.node s1 = File.node s /\
    match err with
    | Some e => File.sync ctx s = File.Returns (Some e) s1
    | None =>
        File.sync ctx s =
        match File.updatePathLocked p s1 with
        | File.Returns _ s2 => File.Returns None s2
        | File.Panics why => File.Panics why
        end
    end.
Proof.
  intros ctx rq rl s p err b H s1.
  split; [reflexivity|]. split; [reflexivity|]. split; [reflexivity|].
  rewrite sync_spec. cbv zeta. rewrite H. destruct err; reflexivity.
Qed.

(** C4. Write reports the full length of the request's data when the
    backend write succeeds; when it fails, the backend's error is returned
    and the response is left as it was: no partial count is reported. *)
Theorem Write_all_or_nothing :
  forall (ctx : Ctx) (req : fuse.WriteRequest) (resp : fuse.WriteResponse) (s : State)
         (err : option Go.error) (b : B),
    libkbfs.Write ctx (File.getPathLocked (File.node s)) (fuse.w_Data req)
      (fuse.w_Offset req) (File.kbfs s) = (err, b) ->
    let s1 := File.called s
                (libkbfs.CallWrite (File.getPathLocked (File.node s)) (fuse.w_Data req)
                   (fuse.w_Offset req)) b in
    match err with
    | None =>
        File.Write ctx req resp s
        = File.Returns (fuse.mkWriteResponse (Go.len (fuse.w_Data req)), None) s1
    | Some e => File.Write ctx req resp s = File.Returns (resp, Some e) s1
    end.
Proof.
  intros ctx req resp s err b H s1. unfold File.Write. run. rewrite H.
  destruct err; reflexivity.
Qed.

(** C5. Read hands the backend the buffer at its full capacity and answers
    with exactly the first [n] bytes of that buffer, [n] being the count the
    backend returned; the error returned is the backend's own, so a count
    below the capacity, zero included, adds no error. *)
Theorem Read_count :
  forall (ctx : Ctx) (req : fuse.ReadRequest) (resp : fuse.ReadResponse) (s : State)
         (stored : list byte) (n : Z) (err : option Go.error) (b : B),
    libkbfs.Read ctx (File.getPathLocked (File.node s)) (Go.backing (fuse.r_Data resp))
      (fuse.r_Offset req) (File.kbfs s) = ((stored, n, err), b) ->
    0 <= n <= Go.cap (fuse.r_Data resp) ->
    exists data,
      File.Read ctx req resp s
      = File.Returns (fuse.mkReadResponse data, err)
          (File.called s
             (libkbfs.CallRead (File.getPathLocked (File.node s))
                (Go.cap (fuse.r_Data resp)) (fuse.r_Offset req)) b) /\
      Go.slen data = n /\
      Go.contents data
      = firstn (Z.to_nat n) (Go.overwrite (Go.backing (fuse.r_Data resp)) stored).
Proof.
  intros ctx req resp s stored n err b H Hn.
  destruct (GoFacts.contents_full (fuse.r_Data resp)) as [Hr Hc].
  unfold File.Read, File.reslice. rewrite Hr. run. rewrite Hc, H. simpl.
  unfold Go.reslice, Go.cap, Go.len. simpl. rewrite GoFacts.overwrite_length.
  assert (Hb : (0 <=? n) && (n <=? Z.of_nat (List.length (Go.backing (fuse.r_Data resp))))
               = true).
  { apply andb_true_intro. unfold Go.cap, Go.len in Hn. split; apply Z.leb_le; lia. }
  rewrite Hb. eexists. split; [reflexivity|]. split; reflexivity.
Qed.

(** Outside the buffer the count cannot be used: a count below zero or
    above the capacity makes the re-slice panic. *)
Lemma Read_count_out_of_range :
  forall (ctx : Ctx) (req : fuse.ReadRequest) (resp : fuse.ReadResponse) (s : State)
         (stored : list byte) (n : Z) (err : option Go.error) (b : B),
    libkbfs.Read ctx (File.getPathLocked (File.node s)) (Go.backing (fuse.r_Data resp))
      (fuse.r_Offset req) (File.kbfs s) = ((stored, n, err), b) ->
    n < 0 \/ Go.cap (fuse.r_Data resp) < n ->
    File.Read ctx req resp s = File.Panics Go.SliceBoundsOutOfRange.
Proof.
  intros ctx req resp s stored n err b H Hn.
  destruct (GoFacts.contents_full (fuse.r_Data resp)) as [Hr Hc].
  unfold File.Read, File.reslice. rewrite Hr. run. rewrite Hc, H. simpl.
  unfold Go.reslice, Go.cap, Go.len. simpl. rewrite GoFacts.overwrite_length.
  assert (Hb : (0 <=? n) && (n <=? Z.of_nat (List.length (Go.backing (fuse.r_Data resp))))
               = false).
  { unfold Go.cap, Go.len in Hn. apply andb_false_iff.
    destruct Hn; [left; apply Z.leb_gt | right; apply Z.leb_gt]; lia. }
  rewrite Hb. reflexivity.
Qed.

(** *** Setattr: the [valid] bits *)

Lemma has_testbit (v k : Z) : 0 <= k -> fuse.has v (Z.shiftl 1 k) = Z.testbit v k.
Proof.
  intros Hk. unfold fuse.has. rewrite Z.shiftl_1_l.
  destruct (Z.testbit v k) eqn:E.
  - apply negb_true_iff, Z.eqb_neq. intros H0.
    assert (Hb : Z.testbit (Z.land v (2 ^ k)) k = true).
    { rewrite Z.land_spec, E, Z.pow2_bits_true by lia. reflexivity. }
    rewrite H0, Z.testbit_0_l in Hb. discriminate.
  - apply negb_false_iff, Z.eqb_eq. apply Z.bits_inj'. intros i Hi.
    rewrite Z.land_spec, Z.testbit_0_l, Z.pow2_bits_eqb by lia.
    destruct (Z.eqb_spec k i) as [->|]; [rewrite E|]; apply andb_false_r || reflexivity.
Qed.

Lemma clear_absent (v f : Z) : fuse.has v f = false -> fuse.clear v f = v.
Proof.
  unfold fuse.has, fuse.clear. intros H.
  apply negb_false_iff, Z.eqb_eq in H.
  apply Z.bits_inj'. intros i Hi. rewrite Z.ldiff_spec.
  assert (Hb : Z.testbit (Z.land v f) i = false) by (rewrite H; apply Z.testbit_0_l).
  rewrite Z.land_spec in Hb.
  destruct (Z.testbit v i), (Z.testbit f i); simpl in *; congruence.
Qed.


Lemma has_Size (v : Z) : fuse.has v fuse.SetattrSize = Z.testbit v 3.
Proof. apply has_testbit. lia. Qed.

Lemma has_Mode (v : Z) : fuse.has v fuse.SetattrMode = Z.testbit v 0.
Proof. apply has_testbit. lia. Qed.

Lemma has_Mtime (v : Z) : fuse.has v fuse.SetattrMtime = Z.testbit v 5.
Proof. apply has_testbit. lia. Qed.

(** Clearing flag [2^j] leaves every other bit alone. *)
Lemma testbit_clear (v j k : Z) :
  0 <= j -> 0 <= k ->
  Z.testbit (fuse.clear v (Z.shiftl 1 j)) k = Z.testbit v k && negb (j =? k).
Proof.
  intros Hj Hk. unfold fuse.clear.
  rewrite Z.ldiff_spec, Z.shiftl_1_l, Z.pow2_bits_eqb by lia. reflexivity.
Qed.

(** What is left of [valid] at the last test, whichever fields were there. *)
Lemma cleared_all (v : Z) :
  fuse.clear
    (fuse.clear
       (fuse.clear (fuse.clear (fuse.clear v fuse.SetattrSize) fuse.SetattrMode)
          fuse.SetattrMtime)
       fuse.SetattrAtime)
    (Z.lor fuse.SetattrLockOwner fuse.SetattrHandle)
  = File.unhandled v.
Proof.
  unfold File.unhandled, File.handled, fuse.clear.
  apply Z.bits_inj'. intros i Hi.
  repeat rewrite ?Z.ldiff_spec, ?Z.lor_spec.
  destruct (Z.testbit v i), (Z.testbit fuse.SetattrSize i),
    (Z.testbit fuse.SetattrMode i), (Z.testbit fuse.SetattrMtime i),
    (Z.testbit fuse.SetattrAtime i), (Z.testbit fuse.SetattrLockOwner i),
    (Z.testbit fuse.SetattrHandle i); reflexivity.
Qed.

(** The mode test [req.Mode&0100 != 0] reads bit 6. *)
Lemma exec_bit (m : Z) : negb (Z.land m (Go.octal [1;0;0]) =? 0) = Z.testbit m 6.
Proof. exact (has_testbit m 6 ltac:(lia)). Qed.

(** *** Setattr: one field at a time *)

Lemma Setattr_size_spec (ctx : Ctx) (req : fuse.SetattrRequest) (v : Z) (s : State) :
  File.Setattr_size ctx req v s =
  if Z.testbit v 3 then
    let p := File.getPathLocked (File.node s) in
    let '(err, b) := libkbfs.Truncate ctx p (fuse.s_Size req) (File.kbfs s) in
    let s1 := File.called s (libkbfs.CallTruncate p (fuse.s_Size req)) b in
    match err with
    | Some e => File.Returns (inl e) s1
    | None => File.Returns (inr (fuse.clear v fuse.SetattrSize)) s1
    end
  else File.Returns (inr (fuse.clear v fuse.SetattrSize)) s.
Proof.
  unfold File.Setattr_size. rewrite <- has_Size.
  destruct (fuse.has v fuse.SetattrSize) eqn:E.
  - run. destruct (libkbfs.Truncate ctx _ _ (File.kbfs s)) as [[e|] b]; reflexivity.
  - rewrite (clear_absent _ _ E). reflexivity.
Qed.

Lemma Setattr_mode_spec (ctx : Ctx) (req : fuse.SetattrRequest) (v : Z) (s : State) :
  File.Setattr_mode ctx req v s =
  if Z.testbit v 0 then
    let p0 := File.getPathLocked (File.node s) in
    let ex := Z.testbit (fuse.s_Mode req) 6 in
    let '((p, err), b) := libkbfs.SetEx ctx p0 ex (File.kbfs s) in
    let s1 := File.called s (libkbfs.CallSetEx p0 ex) b in
    match err with
    | Some e => File.Returns (inl e) s1
    | None =>
        match File.updatePathLocked p s1 with
        | File.Returns _ s2 => File.Returns (inr (fuse.clear v fuse.SetattrMode)) s2
        | File.Panics why => File.Panics why
        end
    end
  else File.Returns (inr (fuse.clear v fuse.SetattrMode)) s.
Proof.
  unfold File.Setattr_mode. rewrite <- has_Mode, exec_bit.
  destruct (fuse.has v fuse.SetattrMode) eqn:E.
  - run. destruct (libkbfs.SetEx ctx _ _ (File.kbfs s)) as [[p [e|]] b]; simpl;
      [reflexivity|].
    destruct (File.updatePathLocked p _); reflexivity.
  - rewrite (clear_absent _ _ E). reflexivity.
Qed.

Lemma Setattr_mtime_spec (ctx : Ctx) (req : fuse.SetattrRequest) (v : Z) (s : State) :
  File.Setattr_mtime ctx req v s =
  if Z.testbit v 5 then
    let p0 := File.getPathLocked (File.node s) in
    let '((p, err), b) := libkbfs.SetMtime ctx p0 (fuse.s_Mtime req) (File.kbfs s) in
    let s1 := File.called s (libkbfs.CallSetMtime p0 (fuse.s_Mtime req)) b in
    match err with
    | Some e => File.Returns (inl e) s1
    | None =>
        match File.updatePathLocked p s1 with
        | File.Returns _ s2 => File.Returns (inr (fuse.clear v fuse.SetattrMtime)) s2
        | File.Panics why => File.Panics why
        end
    end
  else File.Returns (inr (fuse.clear v fuse.SetattrMtime)) s.
Proof.
  unfold File.Setattr_mtime. rewrite <- has_Mtime.
  destruct (fuse.has v fuse.SetattrMtime) eqn:E.
  - run. destruct (libkbfs.SetMtime ctx _ _ (File.kbfs s)) as [[p [e|]] b]; simpl;
      [reflexivity|].
    destruct (File.updatePathLocked p _); reflexivity.
  - rewrite (clear_absent _ _ E). reflexivity.
Qed.

Lemma testbit_clear_Size (v k : Z) :
  0 <= k -> Z.testbit (fuse.clear v fuse.SetattrSize) k = Z.testbit v k && negb (3 =? k).
Proof. intros Hk. apply testbit_clear; lia. Qed.

Lemma testbit_clear_Mode (v k : Z) :
  0 <= k -> Z.testbit (fuse.clear v fuse.SetattrMode) k = Z.testbit v k && negb (0 =? k).
Proof. intros Hk. apply testbit_clear; lia. Qed.

Lemma testbit_clear_Mtime (v k : Z) :
  0 <= k -> Z.testbit (fuse.clear v fuse.SetattrMtime) k = Z.testbit v k && negb (5 =? k).
Proof. intros Hk. apply testbit_clear; lia. Qed.

(** The step for one field looks at its own bit of [valid] only; the rest
    of [valid] merely travels through it. *)
Lemma Setattr_size_valid (ctx : Ctx) (req : fuse.SetattrRequest) (v v' : Z) (s : State) :
  Z.testbit v 3 = Z.testbit v' 3 ->
  File.Setattr_size ctx req v s =
  match File.Setattr_size ctx req v' s with
  | File.Returns (inr _) s1 => File.Returns (inr (fuse.clear v fuse.SetattrSize)) s1
  | File.Returns (inl e) s1 => File.Returns (inl e) s1
  | File.Panics why => File.Panics why
  end.
Proof.
  intros H. rewrite !Setattr_size_spec, H.
  destruct (Z.testbit v' 3); [|reflexivity]. cbv zeta.
  destruct (libkbfs.Truncate ctx _ _ (File.kbfs s)) as [[e|] b]; reflexivity.
Qed.

Lemma Setattr_mode_valid (ctx : Ctx) (req : fuse.SetattrRequest) (v v' : Z) (s : State) :
  Z.testbit v 0 = Z.testbit v' 0 ->
  File.Setattr_mode ctx req v s =
  match File.Setattr_mode ctx req v' s with
  | File.Returns (inr _) s1 => File.Returns (inr (fuse.clear v fuse.SetattrMode)) s1
  | File.Returns (inl e) s1 => File.Returns (inl e) s1
  | File.Panics why => File.Panics why
  end.
Proof.
  intros H. rewrite !Setattr_mode_spec, H.
  destruct (Z.testbit v' 0); [|reflexivity]. cbv zeta.
  destruct (libkbfs.SetEx ctx _ _ (File.kbfs s)) as [[p [e|]] b]; [reflexivity|].
  destruct (File.updatePathLocked p _); reflexivity.
Qed.

Lemma Setattr_mtime_valid (ctx : Ctx) (req : fuse.SetattrRequest) (v v' : Z) (s : State) :
  Z.testbit v 5 = Z.testbit v' 5 ->
  File.Setattr_mtime ctx req v s =
  match File.Setattr_mtime ctx req v' s with
  | File.Returns (inr _) s1 => File.Returns (inr (fuse.clear v fuse.SetattrMtime)) s1
  | File.Returns (inl e) s1 => File.Returns (inl e) s1
  | File.Panics why => File.Panics why
  end.
Proof.
  intros H. rewrite !Setattr_mtime_spec, H.
  destruct (Z.testbit v' 5); [|reflexivity]. cbv zeta.
  destruct (libkbfs.SetMtime ctx _ _ (File.kbfs s)) as [[p [e|]] b]; [reflexivity|].
  destruct (File.updatePathLocked p _); reflexivity.
Qed.

(** Setattr in outline: the three fields in turn, each leaving with the
    backend's error if there is one, then the test for fields nobody
    handled. *)
Lemma Setattr_outline (ctx : Ctx) (req : fuse.SetattrRequest) (s : State) :
  File.Setattr ctx req s =
  match File.Setattr_size ctx req (fuse.s_Valid req) s with
  | File.Panics why => File.Panics why
  | File.Returns (inl e) s1 => File.Returns (Some e) s1
  | File.Returns (inr _) s1 =>
      match File.Setattr_mode ctx req (fuse.s_Valid req) s1 with
      | File.Panics why => File.Panics why
      | File.Returns (inl e) s2 => File.Returns (Some e) s2
      | File.Returns (inr _) s2 =>
          match File.Setattr_mtime ctx req (fuse.s_Valid req) s2 with
          | File.Panics why => File.Panics why
          | File.Returns (inl e) s3 => File.Returns (Some e) s3
          | File.Returns (inr _) s3 =>
              File.Returns
                (if File.unhandled (fuse.s_Valid req) =? 0 then None else Some fuse.ENOSYS)
                s3
          end
      end
  end.
Proof.
  unfold File.Setattr, File.bind.
  rewrite (Setattr_size_valid ctx req (fuse.s_Valid req) (fuse.s_Valid req) s eq_refl).
  destruct (File.Setattr_size ctx req (fuse.s_Valid req) s) as [[e|v1] s1|w];
    [reflexivity| |reflexivity].
  rewrite (Setattr_mode_valid ctx req _ (fuse.s_Valid req) s1)
    by (rewrite testbit_clear_Size by lia; apply andb_true_r).
  destruct (File.Setattr_mode ctx req (fuse.s_Valid req) s1) as [[e|v2] s2|w];
    [reflexivity| |reflexivity].
  rewrite (Setattr_mtime_valid ctx req _ (fuse.s_Valid req) s2)
    by (rewrite testbit_clear_Mode, testbit_clear_Size by lia; simpl;
        now rewrite !andb_true_r).
  destruct (File.Setattr_mtime ctx req (fuse.s_Valid req) s2) as [[e|v3] s3|w];
    [reflexivity| |reflexivity].
  rewrite cleared_all. unfold File.ret.
  destruct (File.unhandled (fuse.s_Valid req) =? 0); reflexivity.
Qed.


(** A step whose field is not requested does nothing. *)
Lemma Setattr_size_skip (ctx : Ctx) (req : fuse.SetattrRequest) (v : Z) (s : State) :
  Z.testbit v 3 = false ->
  File.Setattr_size ctx req v s = File.Returns (inr (fuse.clear v fuse.SetattrSize)) s.
Proof. intros H. now rewrite Setattr_size_spec, H. Qed.

Lemma Setattr_mode_skip (ctx : Ctx) (req : fuse.SetattrRequest) (v : Z) (s : State) :
  Z.testbit v 0 = false ->
  File.Setattr_mode ctx req v s = File.Returns (inr (fuse.clear v fuse.SetattrMode)) s.
Proof. intros H. now rewrite Setattr_mode_spec, H. Qed.

Lemma Setattr_mtime_skip (ctx : Ctx) (req : fuse.SetattrRequest) (v : Z) (s : State) :
  Z.testbit v 5 = false ->
  File.Setattr_mtime ctx req v s = File.Returns (inr (fuse.clear v fuse.SetattrMtime)) s.
Proof. intros H. now rewrite Setattr_mtime_spec, H. Qed.

(** The size step never touches the node, whatever Truncate answers. *)
Lemma Setattr_size_node (ctx : Ctx) (req : fuse.SetattrRequest) (v : Z) (s : State) :
  exists r s', File.Setattr_size ctx req v s = File.Returns r s'
               /\ File.node s' = File.node s.
Proof.
  rewrite Setattr_size_spec. destruct (Z.testbit v 3); [|eauto]. cbv zeta.
  destruct (libkbfs.Truncate ctx _ _ (File.kbfs s)) as [[e|] b]; eauto.
Qed.

(** C10. Write and the size field of Setattr call the backend and leave the
    node alone: after either, whether the backend call failed or not, the
    node's PathNode and everything behind its parent pointer are what they
    were.  A Setattr that asks for neither mode nor mtime therefore never
    changes them. *)
Theorem Write_Truncate_keep_node :
  forall (ctx : Ctx) (s : State),
    (forall req resp, exists r s',
        File.Write ctx req resp s = File.Returns r s' /\ File.node s' = File.node s)
    /\
    (forall req valid, exists r s',
        File.Setattr_size ctx req valid s = File.Returns r s'
        /\ File.node s' = File.node s)
    /\
    (forall req,
        fuse.has (fuse.s_Valid req) fuse.SetattrMode = false ->
        fuse.has (fuse.s_Valid req) fuse.SetattrMtime = false ->
        exists r s',
          File.Setattr ctx req s = File.Returns r s' /\ File.node s' = File.node s).
Proof.
  intros ctx s. split; [|split].
  - intros req resp. unfold File.Write. run.
    destruct (libkbfs.Write ctx _ _ _ (File.kbfs s)) as [[e|] b]; eauto.
  - intros req valid. apply Setattr_size_node.
  - intros req Hmode Hmtime. rewrite has_Mode in Hmode. rewrite has_Mtime in Hmtime.
    rewrite Setattr_outline.
    destruct (Setattr_size_node ctx req (fuse.s_Valid req) s) as (r & s1 & -> & Hn).
    destruct r as [e|v1]; [eauto|].
    rewrite Setattr_mode_skip, Setattr_mtime_skip by assumption. eauto.
Qed.


(** Setattr reads its request through six things only: the three bits of
    [Valid] it acts on, which unknown bits are set, the size, the mtime, and
    bit 6 of the mode. *)
Lemma Setattr_ext (ctx : Ctx) (req req' : fuse.SetattrRequest) (s : State) :
  fuse.s_Size req = fuse.s_Size req' ->
  fuse.s_Mtime req = fuse.s_Mtime req' ->
  Z.testbit (fuse.s_Mode req) 6 = Z.testbit (fuse.s_Mode req') 6 ->
  Z.testbit (fuse.s_Valid req) 3 = Z.testbit (fuse.s_Valid req') 3 ->
  Z.testbit (fuse.s_Valid req) 0 = Z.testbit (fuse.s_Valid req') 0 ->
  Z.testbit (fuse.s_Valid req) 5 = Z.testbit (fuse.s_Valid req') 5 ->
  File.unhandled (fuse.s_Valid req) = File.unhandled (fuse.s_Valid req') ->
  File.Setattr ctx req s = File.Setattr ctx req' s.
Proof.
  intros Hsize Hmtime Hmode H3 H0 H5 Hu.
  rewrite !Setattr_outline, !Setattr_size_spec, <- Hsize, <- H3, <- Hu.
  assert (Htail : forall s2,
             match File.Setattr_mtime ctx req (fuse.s_Valid req) s2 with
             | File.Returns (inl e) s3 => File.Returns (Some e) s3
             | File.Returns (inr _) s3 =>
                 File.Returns
                   (if File.unhandled (fuse.s_Valid req) =? 0
                    then None else Some fuse.ENOSYS) s3
             | File.Panics why => File.Panics why
             end =
             match File.Setattr_mtime ctx req' (fuse.s_Valid req') s2 with
             | File.Returns (inl e) s3 => File.Returns (Some e) s3
             | File.Returns (inr _) s3 =>
                 File.Returns
                   (if File.unhandled (fuse.s_Valid req) =? 0
                    then None else Some fuse.ENOSYS) s3
             | File.Panics why => File.Panics why
             end).
  { intros s2. rewrite !Setattr_mtime_spec, <- Hmtime, <- H5.
    destruct (Z.testbit (fuse.s_Valid req) 5); [|reflexivity]. cbv zeta.
    destruct (libkbfs.SetMtime ctx _ _ _) as [[p [e|]] b]; [reflexivity|].
    destruct (File.updatePathLocked p _); reflexivity. }
  assert (Hmid : forall s1,
             match File.Setattr_mode ctx req (fuse.s_Valid req) s1 with
             | File.Returns (inl e) s2 => File.Returns (Some e) s2
             | File.Returns (inr _) s2 =>
                 match File.Setattr_mtime ctx req (fuse.s_Valid req) s2 with
                 | File.Returns (inl e) s3 => File.Returns (Some e) s3
                 | File.Returns (inr _) s3 =>
                     File.Returns
                       (if File.unhandled (fuse.s_Valid req) =? 0
                        then None else Some fuse.ENOSYS) s3
                 | File.Panics why => File.Panics why
                 end
             | File.Panics why => File.Panics why
             end =
             match File.Setattr_mode ctx req' (fuse.s_Valid req') s1 with
             | File.Returns (inl e) s2 => File.Returns (Some e) s2
             | File.Returns (inr _) s2 =>
                 match File.Setattr_mtime ctx req' (fuse.s_Valid req') s2 with
                 | File.Returns (inl e) s3 => File.Returns (Some e) s3
                 | File.Returns (inr _) s3 =>
                     File.Returns
                       (if File.unhandled (fuse.s_Valid req) =? 0
                        then None else Some fuse.ENOSYS) s3
                 | File.Panics why => File.Panics why
                 end
             | File.Panics why => File.Panics why
             end).
  { intros s1. rewrite !Setattr_mode_spec, <- Hmode, <- H0.
    destruct (Z.testbit (fuse.s_Valid req) 0); [|apply Htail]. cbv zeta.
    destruct (libkbfs.SetEx ctx _ _ _) as [[p [e|]] b]; [reflexivity|].
    destruct (File.updatePathLocked p _); [apply Htail | reflexivity]. }
  destruct (Z.testbit (fuse.s_Valid req) 3); [|apply Hmid]. cbv zeta.
  destruct (libkbfs.Truncate ctx _ _ _) as [[e|] b]; [reflexivity | apply Hmid].
Qed.

(** Bits Setattr handles do not count as unknown. *)
Lemma unhandled_flag (v f : Z) :
  Z.ldiff f File.handled = 0 ->
  File.unhandled (Z.lor v f) = File.unhandled v
  /\ File.unhandled (Z.ldiff v f) = File.unhandled v.
Proof.
  intros Hf. unfold File.unhandled.
  assert (Hb : forall i, 0 <= i ->
                         Z.testbit f i && negb (Z.testbit File.handled i) = false).
  { intros i Hi. rewrite <- Z.ldiff_spec, Hf. apply Z.testbit_0_l. }
  split; apply Z.bits_inj'; intros i Hi; specialize (Hb i Hi);
    repeat rewrite ?Z.ldiff_spec, ?Z.lor_spec;
    destruct (Z.testbit v i), (Z.testbit f i), (Z.testbit File.handled i);
    simpl in *; congruence.
Qed.

(** Setattr in full, in terms of the backend's answers: each requested
    field's call is made on the Path of the node as the call finds it; an
    error ends the call there, a Path returned without error is propagated;
    at the end unknown fields give ENOSYS. *)
Lemma Setattr_exact (ctx : Ctx) (req : fuse.SetattrRequest) (s : State) :
  File.Setattr ctx req s =
  let v := fuse.s_Valid req in
  let t := libkbfs.Truncate ctx (File.getPathLocked (File.node s)) (fuse.s_Size req)
             (File.kbfs s) in
  let s1 := if fuse.has v fuse.SetattrSize
            then File.called s
                   (libkbfs.CallTruncate (File.getPathLocked (File.node s))
                      (fuse.s_Size req)) (snd t)
            else s in
  match (if fuse.has v fuse.SetattrSize then fst t else None) with
  | Some e => File.Returns (Some e) s1
  | None =>
      let x := libkbfs.SetEx ctx (File.getPathLocked (File.node s1))
                 (Z.testbit (fuse.s_Mode req) 6) (File.kbfs s1) in
      let s1' := File.called s1
                   (libkbfs.CallSetEx (File.getPathLocked (File.node s1))
                      (Z.testbit (fuse.s_Mode req) 6)) (snd x) in
      match (if fuse.has v fuse.SetattrMode then snd (fst x) else None) with
      | Some e => File.Returns (Some e) s1'
      | None =>
          match (if fuse.has v fuse.SetattrMode
                 then File.updatePathLocked (fst (fst x)) s1'
                 else File.Returns tt s1) with
          | File.Panics why => File.Panics why
          | File.Returns _ s2 =>
              let m := libkbfs.SetMtime ctx (File.getPathLocked (File.node s2))
                         (fuse.s_Mtime req) (File.kbfs s2) in
              let s2' := File.called s2
                           (libkbfs.CallSetMtime (File.getPathLocked (File.node s2))
                              (fuse.s_Mtime req)) (snd m) in
              match (if fuse.has v fuse.SetattrMtime then snd (fst m) else None) with
              | Some e => File.Returns (Some e) s2'
              | None =>
                  match (if fuse.has v fuse.SetattrMtime
                         then File.updatePathLocked (fst (fst m)) s2'
                         else File.Returns tt s2) with
                  | File.Panics why => File.Panics why
                  | File.Returns _ s3 =>
                      File.Returns
                        (if File.unhandled v =? 0 then None else Some fuse.ENOSYS) s3
                  end
              end
          end
      end
  end.
Proof.
  rewrite Setattr_outline. cbv zeta. rewrite !has_Size, !has_Mode, !has_Mtime.
  assert (Htail : forall s2,
             match File.Setattr_mtime ctx req (fuse.s_Valid req) s2 with
             | File.Returns (inl e) s3 => File.Returns (Some e) s3
             | File.Returns (inr _) s3 =>
                 File.Returns
                   (if File.unhandled (fuse.s_Valid req) =? 0
                    then None else Some fuse.ENOSYS) s3
             | File.Panics why => File.Panics why
             end =
             match
               (if Z.testbit (fuse.s_Valid req) 5
                then snd (fst (libkbfs.SetMtime ctx (File.getPathLocked (File.node s2))
                                 (fuse.s_Mtime req) (File.kbfs s2)))
                else None)
             with
             | Some e =>
                 File.Returns (Some e)
                   (File.called s2
                      (libkbfs.CallSetMtime (File.getPathLocked (File.node s2))
                         (fuse.s_Mtime req))
                      (snd (libkbfs.SetMtime ctx (File.getPathLocked (File.node s2))
                              (fuse.s_Mtime req) (File.kbfs s2))))
             | None =>
                 match
                   (if Z.testbit (fuse.s_Valid req) 5
                    then File.updatePathLocked
                           (fst (fst (libkbfs.SetMtime ctx
                                        (File.getPathLocked (File.node s2))
                                        (fuse.s_Mtime req) (File.kbfs s2))))
                           (File.called s2
                              (libkbfs.CallSetMtime (File.getPathLocked (File.node s2))
                                 (fuse.s_Mtime req))
                              (snd (libkbfs.SetMtime ctx
                                      (File.getPathLocked (File.node s2))
                                      (fuse.s_Mtime req) (File.kbfs s2))))
                    else File.Returns tt s2)
                 with
                 | File.Panics why => File.Panics why
                 | File.Returns _ s3 =>
                     File.Returns
                       (if File.unhandled (fuse.s_Valid req) =? 0
                        then None else Some fuse.ENOSYS) s3
                 end
             end).
  { intros s2. rewrite Setattr_mtime_spec.
    destruct (Z.testbit (fuse.s_Valid req) 5); [|reflexivity]. cbv zeta.
    destruct (libkbfs.SetMtime ctx _ _ _) as [[p [e|]] b]; cbn [fst snd];
      [reflexivity|].
    destruct (File.updatePathLocked p _); reflexivity. }
  rewrite Setattr_size_spec.
  destruct (Z.testbit (fuse.s_Valid req) 3); cbv zeta.
  - destruct (libkbfs.Truncate ctx _ _ _) as [[e|] b]; cbn [fst snd]; [reflexivity|].
    rewrite Setattr_mode_spec.
    destruct (Z.testbit (fuse.s_Valid req) 0); cbv zeta; [|apply Htail].
    destruct (libkbfs.SetEx ctx _ _ _) as [[p [e|]] b']; cbn [fst snd]; [reflexivity|].
    destruct (File.updatePathLocked p _); [apply Htail | reflexivity].
  - rewrite Setattr_mode_spec.
    destruct (Z.testbit (fuse.s_Valid req) 0); cbv zeta; [|apply Htail].
    destruct (libkbfs.SetEx ctx _ _ _) as [[p [e|]] b']; cbn [fst snd]; [reflexivity|].
    destruct (File.updatePathLocked p _); [apply Htail | reflexivity].
Qed.

(** What a step hands on when it goes through. *)
Lemma Setattr_step_valid (ctx : Ctx) (req : fuse.SetattrRequest) (v v1 : Z) (s s1 : State) :
  (File.Setattr_size ctx req v s = File.Returns (inr v1) s1 ->
   v1 = fuse.clear v fuse.SetattrSize)
  /\ (File.Setattr_mode ctx req v s = File.Returns (inr v1) s1 ->
      v1 = fuse.clear v fuse.SetattrMode)
  /\ (File.Setattr_mtime ctx req v s = File.Returns (inr v1) s1 ->
      v1 = fuse.clear v fuse.SetattrMtime).
Proof.
  rewrite Setattr_size_spec, Setattr_mode_spec, Setattr_mtime_spec.
  split; [|split]; intros H.
  - destruct (Z.testbit v 3); [|congruence]. cbv zeta in H.
    destruct (libkbfs.Truncate ctx _ _ _) as [[e|] b]; congruence.
  - destruct (Z.testbit v 0); [|congruence]. cbv zeta in H.
    destruct (libkbfs.SetEx ctx _ _ _) as [[p [e|]] b]; [congruence|].
    destruct (File.updatePathLocked p _); congruence.
  - destruct (Z.testbit v 5); [|congruence]. cbv zeta in H.
    destruct (libkbfs.SetMtime ctx _ _ _) as [[p [e|]] b]; [congruence|].
    destruct (File.updatePathLocked p _); congruence.
Qed.

(** C3 (as the code has it). An access time in the request is accepted and
    dropped: asking for it alone returns nil with the state, the record of
    backend calls included, untouched, and adding it to any request changes
    nothing.  A request with a field Setattr does not know never returns
    nil.  What it returns is settled by the backend's answers alone: the
    error of the Truncate, if a size is requested and its Truncate fails;
    else the error of the SetEx, if a mode is requested and its SetEx
    fails; else the error of the SetMtime, if an mtime is requested and its
    SetMtime fails; else, every requested call having gone through,
    ENOSYS. *)
Theorem Setattr_atime_and_unhandled :
  forall (ctx : Ctx) (s : State),
    (forall req,
        File.Setattr ctx (fuse.with_Valid req fuse.SetattrAtime) s = File.Returns None s)
    /\
    (forall req atime,
        File.Setattr ctx
          (fuse.with_Atime
             (fuse.with_Valid req (Z.lor (fuse.s_Valid req) fuse.SetattrAtime)) atime) s
        = File.Setattr ctx
            (fuse.with_Valid req (Z.ldiff (fuse.s_Valid req) fuse.SetattrAtime)) s)
    /\
    (forall req,
        File.unhandled (fuse.s_Valid req) <> 0 ->
        (forall s', File.Setattr ctx req s <> File.Returns None s')
        /\
        File.Setattr ctx req s =
        (let v := fuse.s_Valid req in
         let t := libkbfs.Truncate ctx (File.getPathLocked (File.node s))
                    (fuse.s_Size req) (File.kbfs s) in
         let s1 := if fuse.has v fuse.SetattrSize
                   then File.called s
                          (libkbfs.CallTruncate (File.getPathLocked (File.node s))
                             (fuse.s_Size req)) (snd t)
                   else s in
         match (if fuse.has v fuse.SetattrSize then fst t else None) with
         | Some e => File.Returns (Some e) s1
         | None =>
             let x := libkbfs.SetEx ctx (File.getPathLocked (File.node s1))
                        (Z.testbit (fuse.s_Mode req) 6) (File.kbfs s1) in
             let s1' := File.called s1
                          (libkbfs.CallSetEx (File.getPathLocked (File.node s1))
                             (Z.testbit (fuse.s_Mode req) 6)) (snd x) in
             match (if fuse.has v fuse.SetattrMode then snd (fst x) else None) with
             | Some e => File.Returns (Some e) s1'
             | None =>
                 match (if fuse.has v fuse.SetattrMode
                        then File.updatePathLocked (fst (fst x)) s1'
                        else File.Returns tt s1) with
                 | File.Panics why => File.Panics why
                 | File.Returns _ s2 =>
                     let m := libkbfs.SetMtime ctx (File.getPathLocked (File.node s2))
                                (fuse.s_Mtime req) (File.kbfs s2) in
                     let s2' := File.called s2
                                  (libkbfs.CallSetMtime
                                     (File.getPathLocked (File.node s2))
                                     (fuse.s_Mtime req)) (snd m) in
                     match (if fuse.has v fuse.SetattrMtime then snd (fst m) else None)
                     with
                     | Some e => File.Returns (Some e) s2'
                     | None =>
                         match (if fuse.has v fuse.SetattrMtime
                                then File.updatePathLocked (fst (fst m)) s2'
                                else File.Returns tt s2) with
                         | File.Panics why => File.Panics why
                         | File.Returns _ s3 => File.Returns (Some fuse.ENOSYS) s3
                         end
                     end
                 end
             end
         end)
        /\
        (forall v1 v2 v3 s1 s2 s3,
            File.Setattr_size ctx req (fuse.s_Valid req) s = File.Returns (inr v1) s1 ->
            File.Setattr_mode ctx req v1 s1 = File.Returns (inr v2) s2 ->
            File.Setattr_mtime ctx req v2 s2 = File.Returns (inr v3) s3 ->
            File.Setattr ctx req s = File.Returns (Some fuse.ENOSYS) s3)
        /\
        (fuse.has (fuse.s_Valid req) fuse.SetattrSize = false ->
         fuse.has (fuse.s_Valid req) fuse.SetattrMode = false ->
         fuse.has (fuse.s_Valid req) fuse.SetattrMtime = false ->
         File.Setattr ctx req s = File.Returns (Some fuse.ENOSYS) s)).
Proof.
  intros ctx s. split; [|split].
  - intros req. rewrite Setattr_outline.
    rewrite Setattr_size_skip, Setattr_mode_skip, Setattr_mtime_skip by reflexivity.
    reflexivity.
  - intros req atime.
    assert (Hd : Z.ldiff fuse.SetattrAtime File.handled = 0) by reflexivity.
    destruct (unhandled_flag (fuse.s_Valid req) fuse.SetattrAtime Hd) as [Hu1 Hu2].
    apply Setattr_ext;
      cbn [fuse.s_Valid fuse.s_Size fuse.s_Mtime fuse.s_Mode fuse.with_Valid
             fuse.with_Atime];
      try reflexivity;
      rewrite ?Z.lor_spec, ?Z.ldiff_spec, ?Hu1, ?Hu2; try reflexivity.
  - intros req Hu. apply Z.eqb_neq in Hu.
    split; [|split; [|split]].
    + intros s' H. rewrite Setattr_outline, Hu in H.
      destruct (File.Setattr_size ctx req _ s) as [[e|v1] s1|w]; try discriminate.
      destruct (File.Setattr_mode ctx req _ s1) as [[e|v2] s2|w]; try discriminate.
      destruct (File.Setattr_mtime ctx req _ s2) as [[e|v3] s3|w]; discriminate.
    + rewrite Setattr_exact. cbv zeta. rewrite Hu. reflexivity.
    + intros v1 v2 v3 s1 s2 s3 H1 H2 H3.
      unfold File.Setattr, File.bind. rewrite H1, H2, H3.
      apply (Setattr_step_valid ctx req (fuse.s_Valid req) v1 s s1) in H1.
      apply (Setattr_step_valid ctx req v1 v2 s1 s2) in H2.
      apply (Setattr_step_valid ctx req v2 v3 s2 s3) in H3.
      subst v3 v2 v1. rewrite cleared_all, Hu. reflexivity.
    + intros Hs Hm Ht. rewrite has_Size in Hs. rewrite has_Mode in Hm.
      rewrite has_Mtime in Ht. rewrite Setattr_outline.
      rewrite Setattr_size_skip, Setattr_mode_skip, Setattr_mtime_skip by assumption.
      now rewrite Hu.
Qed.

(** The mode step of Setattr, started from where the size step left. *)
Lemma Setattr_mode_after_size :
  forall (ctx : Ctx) (req : fuse.SetattrRequest) (s s1 : State) (v1 : Z),
    fuse.has (fuse.s_Valid req) fuse.SetattrMode = true ->
    File.Setattr_size ctx req (fuse.s_Valid req) s = File.Returns (inr v1) s1 ->
    let ex := Z.testbit (fuse.s_Mode req) 6 in
    let p0 := File.getPathLocked (File.node s1) in
    let r := libkbfs.SetEx ctx p0 ex (File.kbfs s1) in
    let s2 := File.called s1 (libkbfs.CallSetEx p0 ex) (snd r) in
    match snd (fst r) with
    | Some e => File.Setattr ctx req s = File.Returns (Some e) s2
    | None =>
        match File.updatePathLocked (fst (fst r)) s2 with
        | File.Panics why => File.Setattr ctx req s = File.Panics why
        | File.Returns _ s3 =>
            File.Setattr ctx req s
            = File.Setattr ctx
                (fuse.with_Valid req
                   (fuse.clear (fuse.clear (fuse.s_Valid req) fuse.SetattrSize)
                      fuse.SetattrMode)) s3
        end
    end.
Proof.
  intros ctx req s s1 v1 Hmode Hsize ex p0 r s2.
  rewrite has_Mode in Hmode.
  rewrite (Setattr_outline ctx req s), Hsize, Setattr_mode_spec, Hmode. cbv zeta.
  fold p0 ex. fold r.
  destruct r as [[p [e|]] b] eqn:Er; cbn [fst snd]; [reflexivity|].
  subst s2. cbn [snd].
  destruct (File.updatePathLocked p _) as [[] s3|w]; [|reflexivity].
  rewrite (Setattr_outline ctx _ s3).
  cbn [fuse.s_Valid fuse.with_Valid].
  rewrite Setattr_size_skip
    by (rewrite testbit_clear_Mode, testbit_clear_Size by lia;
        destruct (Z.testbit (fuse.s_Valid req) 3); reflexivity).
  rewrite Setattr_mode_skip
    by (rewrite testbit_clear_Mode by lia;
        destruct (Z.testbit (fuse.clear (fuse.s_Valid req) fuse.SetattrSize) 0);
        reflexivity).
  assert (Hu : File.unhandled
                 (fuse.clear (fuse.clear (fuse.s_Valid req) fuse.SetattrSize)
                    fuse.SetattrMode)
               = File.unhandled (fuse.s_Valid req)).
  { unfold fuse.clear.
    rewrite (proj2 (unhandled_flag _ fuse.SetattrMode eq_refl)).
    apply (proj2 (unhandled_flag _ fuse.SetattrSize eq_refl)). }
  assert (H5 : Z.testbit
                 (fuse.clear (fuse.clear (fuse.s_Valid req) fuse.SetattrSize)
                    fuse.SetattrMode) 5
               = Z.testbit (fuse.s_Valid req) 5).
  { rewrite testbit_clear_Mode, testbit_clear_Size by lia.
    destruct (Z.testbit (fuse.s_Valid req) 5); reflexivity. }
  rewrite Hu, !Setattr_mtime_spec, H5.
  cbn [fuse.s_Mtime fuse.with_Valid].
  destruct (Z.testbit (fuse.s_Valid req) 5); [|reflexivity]. cbv zeta.
  destruct (libkbfs.SetMtime ctx _ _ _) as [[p' [e|]] b']; [reflexivity|].
  destruct (File.updatePathLocked p' _); reflexivity.
Qed.

(** C7 (as the code has it). In a Setattr that asks for a mode change: if a
    size is requested too and its Truncate fails, the call returns that
    error and SetEx is not called.  Otherwise SetEx is called on the
    reconstructed Path with bit 0100 of the requested mode and nothing else
    of it; its error ends the call, and else the Path it returns goes
    through path propagation before the remaining fields are dealt with.
    Two requests whose modes agree on bit 0100 are always served alike, and
    every mode Attr reports has its three execute bits equal and all other
    bits as in 0644. *)
Theorem Setattr_mode_exec_bit :
  forall (ctx : Ctx) (req : fuse.SetattrRequest) (s : State),
    fuse.has (fuse.s_Valid req) fuse.SetattrMode = true ->
    let v := fuse.s_Valid req in
    let ex := Z.testbit (fuse.s_Mode req) 6 in
    let t := libkbfs.Truncate ctx (File.getPathLocked (File.node s)) (fuse.s_Size req)
               (File.kbfs s) in
    let s1 := if fuse.has v fuse.SetattrSize
              then File.called s
                     (libkbfs.CallTruncate (File.getPathLocked (File.node s))
                        (fuse.s_Size req)) (snd t)
              else s in
    let p0 := File.getPathLocked (File.node s1) in
    let r := libkbfs.SetEx ctx p0 ex (File.kbfs s1) in
    let s2 := File.called s1 (libkbfs.CallSetEx p0 ex) (snd r) in
    (forall e,
        fuse.has v fuse.SetattrSize = true -> fst t = Some e ->
        File.Setattr ctx req s
        = File.Returns (Some e)
            (File.called s
               (libkbfs.CallTruncate (File.getPathLocked (File.node s)) (fuse.s_Size req))
               (snd t)))
    /\
    (fuse.has v fuse.SetattrSize = false \/ fst t = None ->
     match snd (fst r) with
     | Some e => File.Setattr ctx req s = File.Returns (Some e) s2
     | None =>
         match File.updatePathLocked (fst (fst r)) s2 with
         | File.Panics why => File.Setattr ctx req s = File.Panics why
         | File.Returns _ s3 =>
             File.Setattr ctx req s
             = File.Setattr ctx
                 (fuse.with_Valid req
                    (fuse.clear (fuse.clear v fuse.SetattrSize) fuse.SetattrMode)) s3
         end
     end)
    /\
    (forall mode',
        Z.testbit mode' 6 = ex ->
        File.Setattr ctx (fuse.with_Mode req mode') s = File.Setattr ctx req s)
    /\
    (forall a a' t t',
        File.Attr ctx a t = File.Returns (a', None) t' ->
        Z.testbit (fuse.Mode a') 3 = Z.testbit (fuse.Mode a') 6
        /\ Z.testbit (fuse.Mode a') 0 = Z.testbit (fuse.Mode a') 6
        /\ Z.ldiff (fuse.Mode a') (Go.octal [1;1;1]) = Go.octal [6;4;4]).
Proof.
  intros ctx req s Hmode v ex t s1 p0 r s2.
  split; [|split; [|split]].
  - intros e Hs He. rewrite Setattr_exact. cbv zeta.
    fold v. fold t. rewrite Hs, He. reflexivity.
  - intros Hsz.
    assert (Hstep : File.Setattr_size ctx req (fuse.s_Valid req) s
                    = File.Returns (inr (fuse.clear v fuse.SetattrSize)) s1).
    { rewrite Setattr_size_spec, <- has_Size. fold v. subst s1.
      destruct (fuse.has v fuse.SetattrSize); [|reflexivity].
      destruct Hsz as [Hf | Hn]; [discriminate|]. cbv zeta. fold t.
      destruct t as [err b]. cbn [fst snd] in *. subst err. reflexivity. }
    exact (Setattr_mode_after_size ctx req s s1 _ Hmode Hstep).
  - intros mode' Hm. apply Setattr_ext; cbn [fuse.s_Valid fuse.s_Size fuse.s_Mtime
      fuse.s_Mode fuse.with_Mode]; try reflexivity. exact Hm.
  - intros a a' t0 t' H. rewrite Attr_spec in H. cbv zeta in H.
    destruct (libkbfs.Stat ctx _ (File.kbfs t0)) as [[de [e|]] b]; [discriminate|].
    injection H as Ha _. subst a'. cbn [fuse.Mode].
    destruct (libkbfs.EntryType_eqb (libkbfs.Type_ de) libkbfs.Exec);
      repeat split; reflexivity.
Qed.

End Facts.

Lemma Attr_success_witness :
  File.Attr tt Sample.attr0 (Sample.state true None)
  = File.Returns
      (fuse.mkAttr 7 13 0 0 0 0 (Go.octal [7;5;5]) 1 1000 1000, None)
      (File.called (Sample.state true None)
         (libkbfs.CallStat (File.getPathLocked Sample.myfile)) (Sample.disk true None))
  /\
  exists de b,
    libkbfs.Stat tt (File.getPathLocked Sample.myfile) (Sample.disk true None)
    = ((de, None), b) /\
    libkbfs.Type_ de = libkbfs.Exec /\ libkbfs.Size de = 13.
Proof.
  assert (H : File.Attr tt Sample.attr0 (Sample.state true None)
              = File.Returns
                  (fuse.mkAttr 7 13 0 0 0 0 (Go.octal [7;5;5]) 1 1000 1000, None)
                  (File.called (Sample.state true None)
                     (libkbfs.CallStat (File.getPathLocked Sample.myfile))
                     (Sample.disk true None))) by reflexivity.
  split; [exact H|].
  destruct (Attr_success tt _ _ _ _ H) as (de & b & Hs & _).
  exists de, b. split; [exact Hs|].
  vm_compute in Hs. injection Hs as <- _. split; reflexivity.
Defined.

Lemma Fsync_Flush_commit_witness :
  libkbfs.Sync tt (File.getPathLocked Sample.myfile) (Sample.disk false None)
  = ((Sample.path 1, None), memfs.mkFS Sample.hello false 0 1 None)
  /\
  File.Fsync tt (File.mkFsyncRequest 3 0 false) (Sample.state false None)
  = File.Flush tt (File.mkFlushRequest 3 0 0) (Sample.state false None)
  /\
  File.sync tt (Sample.state false None)
  = File.Returns None
      (File.mkState
         (File.mkFile (Dir.Root 1 (libkbfs.mkPathNode 1 "jdoe"))
            (libkbfs.mkPathNode 1 "myfile"))
         (memfs.mkFS Sample.hello false 0 1 None)
         [libkbfs.CallSync (File.getPathLocked Sample.myfile)]).
Proof.
  assert (H : libkbfs.Sync tt (File.getPathLocked (File.node (Sample.state false None)))
                (File.kbfs (Sample.state false None))
              = ((Sample.path 1, None), memfs.mkFS Sample.hello false 0 1 None))
    by reflexivity.
  split; [exact H|].
  destruct (Fsync_Flush_commit tt (File.mkFsyncRequest 3 0 false)
              (File.mkFlushRequest 3 0 0) _ _ _ _ H) as (H1 & _ & _ & H4).
  split; [exact H1|]. rewrite H4. reflexivity.
Defined.

Lemma Write_all_or_nothing_witness :
  libkbfs.Write tt (File.getPathLocked Sample.myfile) [x48; x49] 0
    (Sample.disk false (Some Sample.EIO))
  = (Some Sample.EIO, Sample.disk false (Some Sample.EIO))
  /\
  File.Write tt (fuse.mkWriteRequest [x48; x49] 0) (fuse.mkWriteResponse 0)
    (Sample.state false (Some Sample.EIO))
  = File.Returns (fuse.mkWriteResponse 0, Some Sample.EIO)
      (File.called (Sample.state false (Some Sample.EIO))
         (libkbfs.CallWrite (File.getPathLocked Sample.myfile) [x48; x49] 0)
         (Sample.disk false (Some Sample.EIO))).
Proof.
  assert (H : libkbfs.Write tt
                (File.getPathLocked (File.node (Sample.state false (Some Sample.EIO))))
                (fuse.w_Data (fuse.mkWriteRequest [x48; x49] 0))
                (fuse.w_Offset (fuse.mkWriteRequest [x48; x49] 0))
                (File.kbfs (Sample.state false (Some Sample.EIO)))
              = (Some Sample.EIO, Sample.disk false (Some Sample.EIO)))
    by reflexivity.
  split; [exact H|].
  exact (Write_all_or_nothing tt _ (fuse.mkWriteResponse 0) _ _ _ H).
Defined.

Lemma Read_count_witness :
  libkbfs.Read tt (File.getPathLocked Sample.myfile) (repeat x00 16) 7
    (Sample.disk false None)
  = (([x77; x6f; x72; x6c; x64; x0a], 6, None), Sample.disk false None)
  /\
  0 <= 6 <= Go.cap (Go.mkBytes (repeat x00 16) 0)
  /\
  exists data,
    File.Read tt (fuse.mkReadRequest 7 16)
      (fuse.mkReadResponse (Go.mkBytes (repeat x00 16) 0)) (Sample.state false None)
    = File.Returns (fuse.mkReadResponse data, None)
        (File.called (Sample.state false None)
           (libkbfs.CallRead (File.getPathLocked Sample.myfile) 16 7)
           (Sample.disk false None)) /\
    Go.contents data = [x77; x6f; x72; x6c; x64; x0a].
Proof.
  assert (H : libkbfs.Read tt
                (File.getPathLocked (File.node (Sample.state false None)))
                (Go.backing (fuse.r_Data (fuse.mkReadResponse (Go.mkBytes (repeat x00 16) 0))))
                (fuse.r_Offset (fuse.mkReadRequest 7 16))
                (File.kbfs (Sample.state false None))
              = (([x77; x6f; x72; x6c; x64; x0a], 6, None), Sample.disk false None))
    by reflexivity.
  assert (Hn : 0 <= 6 <= Go.cap (fuse.r_Data
                                   (fuse.mkReadResponse (Go.mkBytes (repeat x00 16) 0))))
    by (vm_compute; split; discriminate).
  split; [exact H|]. split; [exact Hn|].
  destruct (Read_count tt _ _ _ _ _ _ _ H Hn) as (data & Hr & _ & Hc).
  exists data. split; [exact Hr | exact Hc].
Defined.

Lemma Write_Truncate_keep_node_witness :
  fuse.has (fuse.s_Valid (Sample.setattr fuse.SetattrSize 0)) fuse.SetattrMode = false
  /\
  fuse.has (fuse.s_Valid (Sample.setattr fuse.SetattrSize 0)) fuse.SetattrMtime = false
  /\
  exists r s',
    File.Setattr tt (Sample.setattr fuse.SetattrSize 0) (Sample.state false None)
    = File.Returns r s'
    /\ File.node s' = File.node (Sample.state false None).
Proof.
  assert (H1 : fuse.has (fuse.s_Valid (Sample.setattr fuse.SetattrSize 0))
                 fuse.SetattrMode = false) by reflexivity.
  assert (H2 : fuse.has (fuse.s_Valid (Sample.setattr fuse.SetattrSize 0))
                 fuse.SetattrMtime = false) by reflexivity.
  split; [exact H1|]. split; [exact H2|].
  destruct (Write_Truncate_keep_node tt (Sample.state false None)) as (_ & _ & H).
  exact (H _ H1 H2).
Defined.

Lemma Setattr_atime_and_unhandled_witness :
  File.unhandled
    (fuse.s_Valid (Sample.setattr (Z.lor fuse.SetattrAtime fuse.SetattrUid) 0)) <> 0
  /\
  File.Setattr tt (Sample.setattr (Z.lor fuse.SetattrAtime fuse.SetattrUid) 0)
    (Sample.state false None)
  = File.Returns (Some fuse.ENOSYS) (Sample.state false None)
  /\
  File.Setattr tt (Sample.setattr fuse.SetattrAtime 0) (Sample.state false None)
  = File.Returns None (Sample.state false None).
Proof.
  assert (Hu : File.unhandled
                 (fuse.s_Valid (Sample.setattr (Z.lor fuse.SetattrAtime fuse.SetattrUid) 0))
               <> 0) by discriminate.
  split; [exact Hu|].
  destruct (Setattr_atime_and_unhandled tt (Sample.state false None)) as (Ha & _ & H).
  destruct (H _ Hu) as (_ & _ & _ & H4).
  split; [exact (H4 eq_refl eq_refl eq_refl)|].
  exact (Ha (Sample.setattr 0 0)).
Defined.

(** C3 as the spec words it fails: with a size and an unknown field (uid)
    requested on a backend whose Truncate fails, the call returns the
    backend's error, not ENOSYS. *)
Lemma Setattr_unhandled_backend_error_first :
  File.unhandled
    (fuse.s_Valid (Sample.setattr (Z.lor fuse.SetattrSize fuse.SetattrUid) 0)) <> 0
  /\
  File.Setattr tt (Sample.setattr (Z.lor fuse.SetattrSize fuse.SetattrUid) 0)
    (Sample.state false (Some Sample.EIO))
  = File.Returns (Some Sample.EIO)
      (File.called (Sample.state false (Some Sample.EIO))
         (libkbfs.CallTruncate (File.getPathLocked Sample.myfile) 5)
         (Sample.disk false (Some Sample.EIO)))
  /\
  ~ (exists s',
        File.Setattr tt (Sample.setattr (Z.lor fuse.SetattrSize fuse.SetattrUid) 0)
          (Sample.state false (Some Sample.EIO))
        = File.Returns (Some fuse.ENOSYS) s').
Proof.
  split; [discriminate|]. split; [reflexivity|].
  intros [s' H]. vm_compute in H. discriminate.
Qed.

Lemma Setattr_mode_exec_bit_witness :
  fuse.has (fuse.s_Valid (Sample.setattr fuse.SetattrMode (Go.octal [7;4;4])))
    fuse.SetattrMode = true
  /\
  fuse.has (fuse.s_Valid (Sample.setattr fuse.SetattrMode (Go.octal [7;4;4])))
    fuse.SetattrSize = false
  /\
  File.Setattr tt (Sample.setattr fuse.SetattrMode (Go.octal [7;4;4]))
    (Sample.state false None)
  = File.Setattr tt (Sample.setattr 0 (Go.octal [7;4;4]))
      (File.mkState
         (File.mkFile (Dir.Root 1 (libkbfs.mkPathNode 1 "jdoe"))
            (libkbfs.mkPathNode 1 "myfile"))
         (memfs.mkFS Sample.hello true 0 1 None)
         [libkbfs.CallSetEx (File.getPathLocked Sample.myfile) true]).
Proof.
  assert (H1 : fuse.has (fuse.s_Valid (Sample.setattr fuse.SetattrMode (Go.octal [7;4;4])))
                 fuse.SetattrMode = true) by reflexivity.
  assert (H2 : fuse.has (fuse.s_Valid (Sample.setattr fuse.SetattrMode (Go.octal [7;4;4])))
                 fuse.SetattrSize = false) by reflexivity.
  split; [exact H1|]. split; [exact H2|].
  destruct (Setattr_mode_exec_bit tt (Sample.setattr fuse.SetattrMode (Go.octal [7;4;4]))
              (Sample.state false None) H1) as (_ & H & _ & _).
  exact (H (or_introl H2)).
Defined.

(** C7 as the spec words it fails: with a size and a mode 0744 requested on
    a backend whose Truncate fails, bit 0100 is set and yet SetEx is never
    called; the call returns the Truncate error after that one call. *)
Lemma Setattr_mode_without_SetEx :
  fuse.has
    (fuse.s_Valid (Sample.setattr (Z.lor fuse.SetattrSize fuse.SetattrMode)
                     (Go.octal [7;4;4]))) fuse.SetattrMode = true
  /\
  Z.testbit
    (fuse.s_Mode (Sample.setattr (Z.lor fuse.SetattrSize fuse.SetattrMode)
                    (Go.octal [7;4;4]))) 6 = true
  /\
  exists s',
    File.Setattr tt
      (Sample.setattr (Z.lor fuse.SetattrSize fuse.SetattrMode) (Go.octal [7;4;4]))
      (Sample.state false (Some Sample.EIO))
    = File.Returns (Some Sample.EIO) s'
    /\ File.calls s' = [libkbfs.CallTruncate (File.getPathLocked Sample.myfile) 5]
    /\ forall p ex, ~ In (libkbfs.CallSetEx p ex) (File.calls s').
Proof.
  split; [reflexivity|]. split; [reflexivity|].
  eexists. split; [reflexivity|]. split; [reflexivity|].
  intros p ex [H | []]. discriminate.
Qed.

(** TestChmodExec and TestChmodNonExec of mount_test.go, on the in-memory
    backend: chmod 0744 then stat shows rwxr-xr-x; chmod 0655 on an
    executable then stat shows rw-r--r--. *)
Example chmod_0744_then_stat :
  match File.Setattr tt (Sample.setattr fuse.SetattrMode (Go.octal [7;4;4]))
          (Sample.state false None) with
  | File.Returns None s1 =>
      match File.Attr tt Sample.attr0 s1 with
      | File.Returns (a, None) _ => Some (fuse.Mode a)
      | _ => None
      end
  | _ => None
  end = Some (Go.octal [7;5;5]).
Proof. reflexivity. Qed.

Example chmod_0655_then_stat :
  match File.Setattr tt (Sample.setattr fuse.SetattrMode (Go.octal [6;5;5]))
          (Sample.state true None) with
  | File.Returns None s1 =>
      match File.Attr tt Sample.attr0 s1 with
      | File.Returns (a, None) _ => Some (fuse.Mode a)
      | _ => None
      end
  | _ => None
  end = Some (Go.octal [6;4;4]).
Proof. reflexivity. Qed.

End Operations.

(* ===================================================================== *)
(** ** Rename across roots *)
(* ===================================================================== *)

Module RenameFacts.

Section Facts.

Context {B : Type}.

Variable KBFSOps_Rename : mount.Loc -> mount.Loc -> B -> option Go.error * B.

(** C8. A rename whose source and destination lie under different roots
    fails with a link error that carries the operation name, both path
    names and EXDEV; the state comes back as it was: the backend is the
    same, so neither name resolves differently, and no backend call was
    made. *)
Theorem Rename_cross_root :
  forall (mnt : string) (old new : mount.Loc) (s : mount.State),
    mount.root old <> mount.root new ->
    exists le,
      fst (mount.Rename KBFSOps_Rename mnt old new s) = Some le
      /\ mount.Op le = "rename"%string
      /\ mount.Old le = mount.pathname mnt old
      /\ mount.New le = mount.pathname mnt new
      /\ mount.Err le = mount.EXDEV
      /\ snd (mount.Rename KBFSOps_Rename mnt old new s) = s.
Proof.
  intros mnt old new s Hne. unfold mount.Rename.
  destruct (String.eqb_spec (mount.root old) (mount.root new)) as [E | _];
    [contradiction|].
  simpl. eexists. repeat split.
Qed.

End Facts.

(** TestRenameCrossFolder: [jdoe/old] cannot move to [wsmith,jdoe/new];
    afterwards the old name still reads back and the new one is absent. *)
Lemma Rename_cross_root_witness :
  mount.root (mount.mkLoc "jdoe" "old") <> mount.root (mount.mkLoc "wsmith,jdoe" "new")
  /\
  mount.Rename memfs.Rename "/mnt" (mount.mkLoc "jdoe" "old")
    (mount.mkLoc "wsmith,jdoe" "new")
    (mount.mkState [(mount.mkLoc "jdoe" "old", Sample.hello)] [])
  = (Some (mount.mkLinkError "rename" "/mnt/jdoe/old" "/mnt/wsmith,jdoe/new" mount.EXDEV),
     mount.mkState [(mount.mkLoc "jdoe" "old", Sample.hello)] [])
  /\
  memfs.lookup [(mount.mkLoc "jdoe" "old", Sample.hello)] (mount.mkLoc "jdoe" "old")
  = Some Sample.hello
  /\
  memfs.lookup [(mount.mkLoc "jdoe" "old", Sample.hello)]
    (mount.mkLoc "wsmith,jdoe" "new") = None.
Proof.
  assert (H : mount.root (mount.mkLoc "jdoe" "old")
              <> mount.root (mount.mkLoc "wsmith,jdoe" "new")) by discriminate.
  split; [exact H|]. split; [|split; reflexivity].
  destruct (Rename_cross_root memfs.Rename "/mnt" _ _
              (mount.mkState [(mount.mkLoc "jdoe" "old", Sample.hello)] []) H)
    as (le & H1 & H2 & H3 & H4 & H5 & H6).
  rewrite (surjective_pairing (mount.Rename _ _ _ _ _)), H1, H6.
  destruct le as [op o n e]. simpl in H2, H3, H4, H5. subst. reflexivity.
Defined.

(** Inside one root the same rename goes to the backend. *)
Example rename_same_root :
  mount.Rename memfs.Rename "/mnt" (mount.mkLoc "jdoe" "old") (mount.mkLoc "jdoe" "new")
    (mount.mkState [(mount.mkLoc "jdoe" "old", Sample.hello)] [])
  = (None,
     mount.mkState [(mount.mkLoc "jdoe" "new", Sample.hello)]
       [(mount.mkLoc "jdoe" "old", mount.mkLoc "jdoe" "new")]).
Proof. reflexivity. Qed.

End RenameFacts.

(* ===================================================================== *)
(** ** What every operation keeps *)
(* ===================================================================== *)

Module Invariants.

Section Facts.

Context {Ctx D B : Type} {dirOps : Dir.Ops D} {kbfsOps : libkbfs.KBFSOps Ctx B}.

Abbreviation State := (@File.State D B).

Lemma follows_refl (s : State) : Calls.follows s s.
Proof. split; [reflexivity | exists []; now rewrite app_nil_r]. Qed.

Lemma follows_trans (s1 s2 s3 : State) :
  Calls.follows s1 s2 -> Calls.follows s2 s3 -> Calls.follows s1 s3.
Proof.
  intros [N1 [l1 C1]] [N2 [l2 C2]]. split; [congruence|].
  exists (l1 ++ l2). now rewrite C2, C1, app_assoc.
Qed.

Lemma follows_called (s : State) (c : libkbfs.Call) (b : B) :
  Calls.follows s (File.called s c b).
Proof. split; [reflexivity | now exists [c]]. Qed.

(** A propagation that returns: either nothing changed, or the node holds
    the last element of the Path, which goes by the node's name. *)
Lemma updatePathLocked_returns (p : libkbfs.Path) (s s' : State) (r : unit) :
  File.updatePathLocked p s = File.Returns r s' ->
  File.kbfs s' = File.kbfs s
  /\ File.calls s' = File.calls s
  /\ libkbfs.Name (File.pathNode (File.node s'))
     = libkbfs.Name (File.pathNode (File.node s))
  /\ (s' = s
      \/ Go.index (libkbfs.Path_ p) (Go.len (libkbfs.Path_ p) - 1)
         = Some (File.pathNode (File.node s'))).
Proof.
  destruct p as [top l]. intros H.
  destruct l as [|x l'] eqn:El; [discriminate|].
  assert (Hne : l <> []) by (subst; discriminate).
  destruct (GoFacts.nonempty_snoc l Hne) as (q & pNode & E).
  rewrite <- El in H. rewrite <- El. clear El. subst l.
  rewrite Propagation.updatePathLocked_spec in H. cbn [libkbfs.Path_].
  destruct (String.eqb_spec (libkbfs.Name (File.pathNode (File.node s)))
              (libkbfs.Name pNode)) as [En | En].
  - destruct (Dir.updatePathLocked _ _) as [d|]; [|discriminate].
    injection H as _ <-. cbn. repeat split; [congruence|].
    right. apply GoFacts.index_last.
  - injection H as _ <-. repeat split. now left.
Qed.


(** X1. A path propagation that returns has made no backend call and left
    the backend alone, and the node still goes by the name it had: it
    either kept its PathNode or took the last element of the Path, whose
    name is the same. *)
Theorem updatePathLocked_frame :
  forall (p : libkbfs.Path) (s s' : State) (r : unit),
    File.updatePathLocked p s = File.Returns r s' ->
    File.kbfs s' = File.kbfs s
    /\ File.calls s' = File.calls s
    /\ libkbfs.Name (File.pathNode (File.node s'))
       = libkbfs.Name (File.pathNode (File.node s))
    /\ (File.node s' = File.node s
        \/ Go.index (libkbfs.Path_ p) (Go.len (libkbfs.Path_ p) - 1)
           = Some (File.pathNode (File.node s'))).
Proof.
  intros p s s' r H.
  destruct (updatePathLocked_returns p s s' r H) as (Hk & Hc & Hn & [-> | Hl]).
  - repeat split. now left.
  - repeat split; try assumption. now right.
Qed.

Lemma follows_update (p : libkbfs.Path) (s s' : State) (r : unit) :
  File.updatePathLocked p s = File.Returns r s' -> Calls.follows s s'.
Proof.
  intros H. destruct (updatePathLocked_returns p s s' r H) as (_ & Hc & Hn & _).
  split; [exact Hn | exists []; now rewrite app_nil_r].
Qed.

Lemma follows_size (ctx : Ctx) (req : fuse.SetattrRequest) (v : Z) (s s' : State)
      (r : Go.error + Z) :
  File.Setattr_size ctx req v s = File.Returns r s' -> Calls.follows s s'.
Proof.
  rewrite Operations.Setattr_size_spec.
  destruct (Z.testbit v 3); [|intros H; injection H as _ <-; apply follows_refl].
  cbv zeta. destruct (libkbfs.Truncate ctx _ _ _) as [[e|] b]; intros H;
    injection H as _ <-; apply follows_called.
Qed.

Lemma follows_mode (ctx : Ctx) (req : fuse.SetattrRequest) (v : Z) (s s' : State)
      (r : Go.error + Z) :
  File.Setattr_mode ctx req v s = File.Returns r s' -> Calls.follows s s'.
Proof.
  rewrite Operations.Setattr_mode_spec.
  destruct (Z.testbit v 0); [|intros H; injection H as _ <-; apply follows_refl].
  cbv zeta. destruct (libkbfs.SetEx ctx _ _ _) as [[p [e|]] b]; intros H.
  - injection H as _ <-. apply follows_called.
  - destruct (File.updatePathLocked p _) as [u s2|w] eqn:E; [|discriminate].
    injection H as _ <-.
    eapply follows_trans; [apply follows_called | eapply follows_update; exact E].
Qed.

Lemma follows_mtime (ctx : Ctx) (req : fuse.SetattrRequest) (v : Z) (s s' : State)
      (r : Go.error + Z) :
  File.Setattr_mtime ctx req v s = File.Returns r s' -> Calls.follows s s'.
Proof.
  rewrite Operations.Setattr_mtime_spec.
  destruct (Z.testbit v 5); [|intros H; injection H as _ <-; apply follows_refl].
  cbv zeta. destruct (libkbfs.SetMtime ctx _ _ _) as [[p [e|]] b]; intros H.
  - injection H as _ <-. apply follows_called.
  - destruct (File.updatePathLocked p _) as [u s2|w] eqn:E; [|discriminate].
    injection H as _ <-.
    eapply follows_trans; [apply follows_called | eapply follows_update; exact E].
Qed.

(** X2. No operation of a File node renames it or forgets a backend call:
    after Attr, Read, Write, Fsync, Flush or Setattr returns, with or
    without an error, the node's PathNode carries the name it had before and
    the record of backend calls is the old one with calls added. *)
Theorem operations_keep_name :
  forall (ctx : Ctx) (s s' : State),
    (forall a r, File.Attr ctx a s = File.Returns r s' -> Calls.follows s s')
    /\ (forall req resp r, File.Read ctx req resp s = File.Returns r s' ->
                           Calls.follows s s')
    /\ (forall req resp r, File.Write ctx req resp s = File.Returns r s' ->
                           Calls.follows s s')
    /\ (forall req r, File.Fsync ctx req s = File.Returns r s' -> Calls.follows s s')
    /\ (forall req r, File.Flush ctx req s = File.Returns r s' -> Calls.follows s s')
    /\ (forall req r, File.Setattr ctx req s = File.Returns r s' -> Calls.follows s s').
Proof.
  intros ctx s s'.
  assert (Hsync : forall r, File.sync ctx s = File.Returns r s' -> Calls.follows s s').
  { intros r. rewrite Operations.sync_spec. cbv zeta.
    destruct (libkbfs.Sync ctx _ _) as [[p [e|]] b]; intros H.
    - injection H as _ <-. apply follows_called.
    - destruct (File.updatePathLocked p _) as [u s2|w] eqn:E; [|discriminate].
      injection H as _ <-.
      eapply follows_trans; [apply follows_called | eapply follows_update; exact E]. }
  split; [|split; [|split; [|split; [|split]]]].
  - intros a r. rewrite Operations.Attr_spec. cbv zeta.
    destruct (libkbfs.Stat ctx _ _) as [[de [e|]] b]; intros H; injection H as _ <-;
      apply follows_called.
  - intros req resp r.
    destruct (GoFacts.contents_full (fuse.r_Data resp)) as [Hr Hc].
    unfold File.Read, File.reslice. rewrite Hr. Operations.run.
    destruct (libkbfs.Read ctx _ _ _ _) as [[[stored n] err] b]. simpl.
    destruct (Go.reslice _ n); simpl; intros H; [|discriminate].
    injection H as _ <-. apply follows_called.
  - intros req resp r. unfold File.Write. Operations.run.
    destruct (libkbfs.Write ctx _ _ _ _) as [[e|] b]; intros H; injection H as _ <-;
      apply follows_called.
  - intros req r. apply Hsync.
  - intros req r. apply Hsync.
  - intros req r. rewrite Operations.Setattr_outline.
    destruct (File.Setattr_size ctx req _ s) as [[e|v1] s1|w] eqn:E1; try discriminate.
    + intros H. injection H as _ <-. eapply follows_size; exact E1.
    + destruct (File.Setattr_mode ctx req _ s1) as [[e|v2] s2|w] eqn:E2;
        try discriminate.
      * intros H. injection H as _ <-.
        eapply follows_trans; [eapply follows_size; exact E1
                              | eapply follows_mode; exact E2].
      * destruct (File.Setattr_mtime ctx req _ s2) as [[e|v3] s3|w] eqn:E3;
          try discriminate; intros H; injection H as _ <-;
          (eapply follows_trans; [eapply follows_size; exact E1|]);
          (eapply follows_trans; [eapply follows_mode; exact E2|]);
          eapply follows_mtime; exact E3.
Qed.

(** X3. Propagating the Path a node has just reconstructed is always in
    bounds and keeps the node's PathNode: the Path ends in that PathNode, so
    the names agree, and the parent is handed exactly its own reconstructed
    Path. *)
Theorem updatePathLocked_own_path :
  forall (s : State),
    libkbfs.Path_ (File.getPathLocked (File.node s)) <> []
    /\ Go.index (libkbfs.Path_ (File.getPathLocked (File.node s)))
         (Go.len (libkbfs.Path_ (File.getPathLocked (File.node s))) - 1)
       = Some (File.pathNode (File.node s))
    /\ File.updatePathLocked (File.getPathLocked (File.node s)) s
       = match Dir.updatePathLocked (File.parent (File.node s))
                 (Dir.getPathLocked (File.parent (File.node s)))
         with
         | Some d =>
             File.Returns tt
               (File.mkState (File.mkFile d (File.pathNode (File.node s)))
                  (File.kbfs s) (File.calls s))
         | None => File.Panics Go.CalleePanic
         end.
Proof.
  intros s. unfold File.getPathLocked. cbn [libkbfs.Path_].
  split; [|split].
  - intros H. apply app_eq_nil in H. destruct H as [_ H]. discriminate.
  - apply GoFacts.index_last.
  - rewrite Propagation.updatePathLocked_spec, String.eqb_refl.
    destruct (Dir.getPathLocked (File.parent (File.node s))); reflexivity.
Qed.


(** X4. What the next operation works with after a Sync that succeeded: if
    the Path the backend returned ends in a PathNode of the node's name, the
    node now holds that PathNode and every Path it reconstructs ends in it;
    if the name differs, the update is dropped and the node is exactly what
    it was. *)
Theorem sync_then_path :
  forall (ctx : Ctx) (s s' : State) (top : libkbfs.DirId) (q : list libkbfs.PathNode)
         (pNode : libkbfs.PathNode) (b : B),
    libkbfs.Sync ctx (File.getPathLocked (File.node s)) (File.kbfs s)
    = ((libkbfs.mkPath top (q ++ [pNode]), None), b) ->
    File.sync ctx s = File.Returns None s' ->
    (libkbfs.Name (File.pathNode (File.node s)) = libkbfs.Name pNode ->
     File.pathNode (File.node s') = pNode
     /\ Go.index (libkbfs.Path_ (File.getPathLocked (File.node s')))
          (Go.len (libkbfs.Path_ (File.getPathLocked (File.node s'))) - 1)
        = Some pNode)
    /\
    (libkbfs.Name (File.pathNode (File.node s)) <> libkbfs.Name pNode ->
     File.node s' = File.node s).
Proof.
  intros ctx s s' top q pNode b Hs H.
  rewrite Operations.sync_spec in H. cbv zeta in H. rewrite Hs in H.
  rewrite Propagation.updatePathLocked_spec in H. cbn [File.called File.node] in H.
  destruct (String.eqb_spec (libkbfs.Name (File.pathNode (File.node s)))
              (libkbfs.Name pNode)) as [En | En].
  - destruct (Dir.updatePathLocked _ _) as [d|]; [|discriminate].
    injection H as <-. split; [|intros Hne; contradiction].
    intros _. cbn. split; [reflexivity|]. apply GoFacts.index_last.
  - injection H as <-. split; [intros He; contradiction | reflexivity].
Qed.

(** X5. The only ways sync can panic: the backend reports success and
    either returns a Path with no element (index out of range), or returns
    one ending in the node's name on which the parent's propagation panics.
    A Path that comes with an error is never looked at. *)
Theorem sync_panics_iff :
  forall (ctx : Ctx) (s : State) (p : libkbfs.Path) (err : option Go.error) (b : B),
    libkbfs.Sync ctx (File.getPathLocked (File.node s)) (File.kbfs s) = ((p, err), b) ->
    (libkbfs.Path_ p = [] -> err = None ->
     File.sync ctx s = File.Panics Go.IndexOutOfRange)
    /\
    ((exists why, File.sync ctx s = File.Panics why)
     <->
     err = None
     /\ (libkbfs.Path_ p = []
         \/ exists q pNode,
             libkbfs.Path_ p = q ++ [pNode]
             /\ libkbfs.Name (File.pathNode (File.node s)) = libkbfs.Name pNode
             /\ Dir.updatePathLocked (File.parent (File.node s))
                  (libkbfs.mkPath (libkbfs.TopDir p) q) = None)).
Proof.
  intros ctx s [top l] err b Hs. cbn [libkbfs.Path_ libkbfs.TopDir].
  rewrite Operations.sync_spec. cbv zeta. rewrite Hs.
  split.
  - intros -> ->. reflexivity.
  - destruct err as [e|].
    + split; [intros [w H]; discriminate | intros [H _]; discriminate].
    + destruct l as [|x l'] eqn:El.
      * split; [intros _; split; [reflexivity | now left] | intros _; now eexists].
      * assert (Hne : l <> []) by (subst; discriminate).
        destruct (GoFacts.nonempty_snoc l Hne) as (q & pNode & E).
        rewrite <- El. clear El. subst l.
        rewrite Propagation.updatePathLocked_spec. cbn [File.called File.node].
        destruct (String.eqb_spec (libkbfs.Name (File.pathNode (File.node s)))
                    (libkbfs.Name pNode)) as [En | En].
        -- destruct (Dir.updatePathLocked _ _) as [d|] eqn:Ed.
           ++ split; [intros [w H]; discriminate|].
              intros (_ & [H | (q' & n' & Hq & _ & Hd)]).
              ** apply app_eq_nil in H. destruct H as [_ H]. discriminate.
              ** apply app_inj_tail in Hq. destruct Hq as [<- <-]. congruence.
           ++ split; [|intros _; now eexists].
              intros _. split; [reflexivity|]. right. exists q, pNode. auto.
        -- split; [intros [w H]; discriminate|].
           intros (_ & [H | (q' & n' & Hq & Hn & _)]).
           ++ apply app_eq_nil in H. destruct H as [_ H]. discriminate.
           ++ apply app_inj_tail in Hq. destruct Hq as [_ <-]. contradiction.
Qed.

End Facts.

(** On the in-memory backend. *)

Lemma updatePathLocked_frame_witness :
  File.updatePathLocked (Sample.path 1) (Sample.state false None)
  = File.Returns tt
      (File.mkState
         (File.mkFile (Dir.Root 1 (libkbfs.mkPathNode 1 "jdoe"))
            (libkbfs.mkPathNode 1 "myfile"))
         (Sample.disk false None) [])
  /\
  libkbfs.Name (libkbfs.mkPathNode 1 "myfile") = libkbfs.Name (File.pathNode Sample.myfile).
Proof.
  assert (H : File.updatePathLocked (Sample.path 1) (Sample.state false None)
              = File.Returns tt
                  (File.mkState
                     (File.mkFile (Dir.Root 1 (libkbfs.mkPathNode 1 "jdoe"))
                        (libkbfs.mkPathNode 1 "myfile"))
                     (Sample.disk false None) [])) by reflexivity.
  split; [exact H|].
  destruct (updatePathLocked_frame _ _ _ _ H) as (_ & _ & Hn & _). exact Hn.
Defined.

Lemma operations_keep_name_witness :
  File.Setattr tt (Sample.setattr fuse.SetattrMode (Go.octal [7;4;4]))
    (Sample.state false None)
  = File.Returns None
      (File.mkState
         (File.mkFile (Dir.Root 1 (libkbfs.mkPathNode 1 "jdoe"))
            (libkbfs.mkPathNode 1 "myfile"))
         (memfs.mkFS Sample.hello true 0 1 None)
         [libkbfs.CallSetEx (File.getPathLocked Sample.myfile) true])
  /\
  Calls.follows (Sample.state false None)
    (File.mkState
       (File.mkFile (Dir.Root 1 (libkbfs.mkPathNode 1 "jdoe"))
          (libkbfs.mkPathNode 1 "myfile"))
       (memfs.mkFS Sample.hello true 0 1 None)
       [libkbfs.CallSetEx (File.getPathLocked Sample.myfile) true]).
Proof.
  assert (H : File.Setattr tt (Sample.setattr fuse.SetattrMode (Go.octal [7;4;4]))
                (Sample.state false None)
              = File.Returns None
                  (File.mkState
                     (File.mkFile (Dir.Root 1 (libkbfs.mkPathNode 1 "jdoe"))
                        (libkbfs.mkPathNode 1 "myfile"))
                     (memfs.mkFS Sample.hello true 0 1 None)
                     [libkbfs.CallSetEx (File.getPathLocked Sample.myfile) true]))
    by reflexivity.
  split; [exact H|].
  destruct (operations_keep_name tt (Sample.state false None)
              (File.mkState
                 (File.mkFile (Dir.Root 1 (libkbfs.mkPathNode 1 "jdoe"))
                    (libkbfs.mkPathNode 1 "myfile"))
                 (memfs.mkFS Sample.hello true 0 1 None)
                 [libkbfs.CallSetEx (File.getPathLocked Sample.myfile) true]))
    as (_ & _ & _ & _ & _ & Hs).
  exact (Hs _ _ H).
Defined.

Lemma sync_then_path_witness :
  libkbfs.Sync tt (File.getPathLocked Sample.myfile) (Sample.disk false None)
  = ((libkbfs.mkPath 1 ([libkbfs.mkPathNode 1 "jdoe"] ++ [libkbfs.mkPathNode 1 "myfile"]),
      None),
     memfs.mkFS Sample.hello false 0 1 None)
  /\
  File.sync tt (Sample.state false None)
  = File.Returns None
      (File.mkState
         (File.mkFile (Dir.Root 1 (libkbfs.mkPathNode 1 "jdoe"))
            (libkbfs.mkPathNode 1 "myfile"))
         (memfs.mkFS Sample.hello false 0 1 None)
         [libkbfs.CallSync (File.getPathLocked Sample.myfile)])
  /\
  libkbfs.Name (File.pathNode Sample.myfile) = libkbfs.Name (libkbfs.mkPathNode 1 "myfile")
  /\
  Go.index
    (libkbfs.Path_
       (File.getPathLocked
          (File.mkFile (Dir.Root 1 (libkbfs.mkPathNode 1 "jdoe"))
             (libkbfs.mkPathNode 1 "myfile")))) 1
  = Some (libkbfs.mkPathNode 1 "myfile").
Proof.
  assert (H1 : libkbfs.Sync tt (File.getPathLocked (File.node (Sample.state false None)))
                 (File.kbfs (Sample.state false None))
               = ((libkbfs.mkPath 1
                     ([libkbfs.mkPathNode 1 "jdoe"] ++ [libkbfs.mkPathNode 1 "myfile"]),
                   None),
                  memfs.mkFS Sample.hello false 0 1 None)) by reflexivity.
  assert (H2 : File.sync tt (Sample.state false None)
               = File.Returns None
                   (File.mkState
                      (File.mkFile (Dir.Root 1 (libkbfs.mkPathNode 1 "jdoe"))
                         (libkbfs.mkPathNode 1 "myfile"))
                      (memfs.mkFS Sample.hello false 0 1 None)
                      [libkbfs.CallSync (File.getPathLocked Sample.myfile)]))
    by reflexivity.
  assert (H3 : libkbfs.Name (File.pathNode (File.node (Sample.state false None)))
               = libkbfs.Name (libkbfs.mkPathNode 1 "myfile")) by reflexivity.
  split; [exact H1|]. split; [exact H2|]. split; [exact H3|].
  destruct (sync_then_path tt _ _ _ _ _ _ H1 H2) as [Hm _].
  exact (proj2 (Hm H3)).
Defined.

Lemma sync_panics_iff_witness :
  @libkbfs.Sync unit memfs.FS hollow.ops tt (File.getPathLocked Sample.myfile)
    (Sample.disk false None)
  = ((libkbfs.mkPath 1 [], None), memfs.mkFS Sample.hello false 0 1 None)
  /\
  File.sync (kbfsOps := hollow.ops) tt (Sample.state false None)
  = File.Panics Go.IndexOutOfRange.
Proof.
  assert (H : @libkbfs.Sync unit memfs.FS hollow.ops tt
                (File.getPathLocked (File.node (Sample.state false None)))
                (File.kbfs (Sample.state false None))
              = ((libkbfs.mkPath 1 [], None), memfs.mkFS Sample.hello false 0 1 None))
    by reflexivity.
  split; [exact H|].
  destruct (sync_panics_iff (kbfsOps := hollow.ops) tt _ _ _ _ H) as [Hp _].
  exact (Hp eq_refl eq_refl).
Defined.


End Invariants.

(* ===================================================================== *)
(** ** Requests and the backend calls they cause *)
(* ===================================================================== *)

Module Requests.

Section Facts.

Context {Ctx D B : Type} {dirOps : Dir.Ops D} {kbfsOps : libkbfs.KBFSOps Ctx B}.

Abbreviation State := (@File.State D B).

Lemma len_firstn (l : list byte) (n : Z) :
  0 <= n <= Go.len l -> Go.len (firstn (Z.to_nat n) l) = n.
Proof.
  unfold Go.len. intros H. rewrite length_firstn. lia.
Qed.

(** X6. Attr never panics and never touches the node: it makes exactly one
    backend call, the Stat of the reconstructed Path, returns that call's
    error as it is, and with an error leaves the caller's record as it
    found it. *)
Theorem Attr_one_stat :
  forall (ctx : Ctx) (a : fuse.Attr) (s : State),
  exists r s',
    File.Attr ctx a s = File.Returns r s'
    /\ File.node s' = File.node s
    /\ File.calls s' = File.calls s ++ [libkbfs.CallStat (File.getPathLocked (File.node s))]
    /\ snd r = snd (fst (libkbfs.Stat ctx (File.getPathLocked (File.node s)) (File.kbfs s)))
    /\ File.kbfs s' = snd (libkbfs.Stat ctx (File.getPathLocked (File.node s)) (File.kbfs s))
    /\ (snd r <> None -> fst r = a).
Proof.
  intros ctx a s. rewrite Operations.Attr_spec. cbv zeta.
  destruct (libkbfs.Stat ctx _ _) as [[de [e|]] b]; do 2 eexists;
    (split; [reflexivity|]); cbn; repeat split; try reflexivity.
  intros H. now contradiction H.
Qed.

(** X7. A Read that returns has made exactly one backend call, a Read with
    a buffer of the response's full capacity at the request's offset, and
    has not touched the node; the data it answers with lies within the
    response's buffer: same capacity, and a length equal to the count it
    was cut to, between zero and that capacity. *)
Theorem Read_within_buffer :
  forall (ctx : Ctx) (req : fuse.ReadRequest) (resp resp' : fuse.ReadResponse)
         (err : option Go.error) (s s' : State),
    File.Read ctx req resp s = File.Returns (resp', err) s' ->
    File.node s' = File.node s
    /\ File.calls s'
       = File.calls s ++ [libkbfs.CallRead (File.getPathLocked (File.node s))
                            (Go.cap (fuse.r_Data resp)) (fuse.r_Offset req)]
    /\ Go.cap (fuse.r_Data resp') = Go.cap (fuse.r_Data resp)
    /\ 0 <= Go.slen (fuse.r_Data resp') <= Go.cap (fuse.r_Data resp)
    /\ Go.len (Go.contents (fuse.r_Data resp')) = Go.slen (fuse.r_Data resp').
Proof.
  intros ctx req resp resp' err s s'.
  destruct (GoFacts.contents_full (fuse.r_Data resp)) as [Hr Hc].
  unfold File.Read, File.reslice. rewrite Hr. Operations.run.
  destruct (libkbfs.Read ctx _ _ _ _) as [[[stored n] e] b]. simpl.
  unfold Go.reslice. cbn [Go.backing].
  assert (Hcap : Go.cap (Go.mkBytes (Go.overwrite (Go.backing (fuse.r_Data resp)) stored)
                           (Go.slen (fuse.r_Data resp)))
                 = Go.cap (fuse.r_Data resp)).
  { unfold Go.cap, Go.len. cbn [Go.backing]. now rewrite GoFacts.overwrite_length. }
  rewrite Hcap.
  destruct ((0 <=? n) && (n <=? Go.cap (fuse.r_Data resp))) eqn:Hb; simpl;
    intros H; [|discriminate].
  injection H as <- _ <-. cbn [fuse.r_Data Go.slen].
  apply andb_prop in Hb. destruct Hb as [H0 H1].
  apply Z.leb_le in H0. apply Z.leb_le in H1.
  split; [reflexivity|]. split; [reflexivity|]. split; [exact Hcap|].
  split; [lia|].
  unfold Go.contents. cbn [Go.backing Go.slen]. apply len_firstn.
  unfold Go.cap in Hcap. cbn [Go.backing] in Hcap. unfold Go.cap in H1.
  rewrite Hcap. lia.
Qed.


(** X8. The lock-owner and handle fields of a Setattr request are accepted
    and ignored: a request for nothing but them returns nil without a
    backend call, and setting or clearing them in any request changes
    neither what Setattr does nor what it returns. *)
Theorem Setattr_lockowner_handle :
  forall (ctx : Ctx) (req : fuse.SetattrRequest) (s : State),
    File.Setattr ctx
      (fuse.with_Valid req (Z.lor fuse.SetattrLockOwner fuse.SetattrHandle)) s
    = File.Returns None s
    /\ File.Setattr ctx (fuse.with_Valid req fuse.SetattrLockOwner) s = File.Returns None s
    /\ File.Setattr ctx (fuse.with_Valid req fuse.SetattrHandle) s = File.Returns None s
    /\ File.Setattr ctx
         (fuse.with_Valid req
            (Z.lor (fuse.s_Valid req) (Z.lor fuse.SetattrLockOwner fuse.SetattrHandle))) s
       = File.Setattr ctx req s
    /\ File.Setattr ctx
         (fuse.with_Valid req
            (Z.ldiff (fuse.s_Valid req) (Z.lor fuse.SetattrLockOwner fuse.SetattrHandle))) s
       = File.Setattr ctx req s.
Proof.
  intros ctx req s.
  assert (Hnil : forall v,
             Z.testbit v 3 = false -> Z.testbit v 0 = false -> Z.testbit v 5 = false ->
             File.unhandled v = 0 ->
             File.Setattr ctx (fuse.with_Valid req v) s = File.Returns None s).
  { intros v H3 H0 H5 Hu. rewrite Operations.Setattr_outline.
    cbn [fuse.s_Valid fuse.with_Valid].
    rewrite Operations.Setattr_size_skip, Operations.Setattr_mode_skip,
      Operations.Setattr_mtime_skip by assumption.
    now rewrite Hu. }
  destruct (Operations.unhandled_flag (fuse.s_Valid req)
              (Z.lor fuse.SetattrLockOwner fuse.SetattrHandle) eq_refl) as [Hu1 Hu2].
  split; [apply Hnil; reflexivity|].
  split; [apply Hnil; reflexivity|].
  split; [apply Hnil; reflexivity|].
  split; apply Operations.Setattr_ext;
    cbn [fuse.s_Valid fuse.s_Size fuse.s_Mtime fuse.s_Mode fuse.with_Valid];
    rewrite ?Z.lor_spec, ?Z.ldiff_spec, ?Hu1, ?Hu2;
    first [ reflexivity
          | destruct (Z.testbit (fuse.s_Valid req) 3); reflexivity
          | destruct (Z.testbit (fuse.s_Valid req) 0); reflexivity
          | destruct (Z.testbit (fuse.s_Valid req) 5); reflexivity ].
Qed.

(** The backend call each step of Setattr makes, if any. *)
Lemma Setattr_size_calls (ctx : Ctx) (req : fuse.SetattrRequest) (v : Z) (s s1 : State)
      (r : Go.error + Z) :
  File.Setattr_size ctx req v s = File.Returns r s1 ->
  File.calls s1
  = File.calls s
    ++ (if fuse.has v fuse.SetattrSize
        then [libkbfs.CallTruncate (File.getPathLocked (File.node s)) (fuse.s_Size req)]
        else [])
  /\ (fuse.has v fuse.SetattrSize = false -> exists v', r = inr v').
Proof.
  rewrite Operations.Setattr_size_spec, Operations.has_Size.
  destruct (Z.testbit v 3).
  - cbv zeta. destruct (libkbfs.Truncate ctx _ _ _) as [[e|] b]; intros H;
      injection H as _ <-; (split; [reflexivity | discriminate]).
  - intros H. injection H as <- <-. split; [now rewrite app_nil_r | eauto].
Qed.

Lemma Setattr_mode_calls (ctx : Ctx) (req : fuse.SetattrRequest) (v : Z) (s s1 : State)
      (r : Go.error + Z) :
  File.Setattr_mode ctx req v s = File.Returns r s1 ->
  File.calls s1
  = File.calls s
    ++ (if fuse.has v fuse.SetattrMode
        then [libkbfs.CallSetEx (File.getPathLocked (File.node s))
                (Z.testbit (fuse.s_Mode req) 6)]
        else [])
  /\ (fuse.has v fuse.SetattrMode = false -> exists v', r = inr v').
Proof.
  rewrite Operations.Setattr_mode_spec, Operations.has_Mode.
  destruct (Z.testbit v 0).
  - cbv zeta. destruct (libkbfs.SetEx ctx _ _ _) as [[p [e|]] b]; intros H.
    + injection H as _ <-. split; [reflexivity | discriminate].
    + destruct (File.updatePathLocked p _) as [u s2|w] eqn:E; [|discriminate].
      injection H as _ <-.
      destruct (Invariants.updatePathLocked_returns _ _ _ _ E) as (_ & Hc & _).
      split; [exact Hc | discriminate].
  - intros H. injection H as <- <-. split; [now rewrite app_nil_r | eauto].
Qed.

Lemma Setattr_mtime_calls (ctx : Ctx) (req : fuse.SetattrRequest) (v : Z) (s s1 : State)
      (r : Go.error + Z) :
  File.Setattr_mtime ctx req v s = File.Returns r s1 ->
  File.calls s1
  = File.calls s
    ++ (if fuse.has v fuse.SetattrMtime
        then [libkbfs.CallSetMtime (File.getPathLocked (File.node s)) (fuse.s_Mtime req)]
        else [])
  /\ (fuse.has v fuse.SetattrMtime = false -> exists v', r = inr v').
Proof.
  rewrite Operations.Setattr_mtime_spec, Operations.has_Mtime.
  destruct (Z.testbit v 5).
  - cbv zeta. destruct (libkbfs.SetMtime ctx _ _ _) as [[p [e|]] b]; intros H.
    + injection H as _ <-. split; [reflexivity | discriminate].
    + destruct (File.updatePathLocked p _) as [u s2|w] eqn:E; [|discriminate].
      injection H as _ <-.
      destruct (Invariants.updatePathLocked_returns _ _ _ _ E) as (_ & Hc & _).
      split; [exact Hc | discriminate].
  - intros H. injection H as <- <-. split; [now rewrite app_nil_r | eauto].
Qed.

(** Replaying calls one list after the other. *)
Lemma replay_app (ctx : Ctx) (l1 l2 : list Calls.Mutation) (b : B) :
  Calls.replay ctx (l1 ++ l2) b
  = (fst (Calls.replay ctx l1 b) ++ fst (Calls.replay ctx l2 (snd (Calls.replay ctx l1 b))),
     snd (Calls.replay ctx l2 (snd (Calls.replay ctx l1 b)))).
Proof.
  revert b. induction l1 as [|m l1 IH]; intros b; cbn [app Calls.replay].
  - cbn [fst snd app]. now destruct (Calls.replay ctx l2 b).
  - destruct (Calls.answer ctx m b) as [e b1]. rewrite IH.
    destruct (Calls.replay ctx l1 b1) as [es b2]. cbn [fst snd].
    destruct (Calls.replay ctx l2 b2) as [es' b3]. reflexivity.
Qed.

(** A stretch of a returning call: the calls it recorded, replayed from the
    backend state it started in, give the answers [es] and the backend
    state it ended in. *)
Abbreviation stretch ctx s s1 l es :=
  (File.calls s1 = File.calls s ++ map Calls.call l
   /\ Calls.replay ctx l (File.kbfs s) = (es, File.kbfs s1)).

Lemma stretch_app (ctx : Ctx) (s s1 s2 : State) (l1 l2 : list Calls.Mutation)
      (e1 e2 : list (option Go.error)) :
  stretch ctx s s1 l1 e1 -> stretch ctx s1 s2 l2 e2 ->
  stretch ctx s s2 (l1 ++ l2) (e1 ++ e2).
Proof.
  intros [C1 R1] [C2 R2]. split.
  - now rewrite C2, C1, map_app, app_assoc.
  - rewrite replay_app, R1. cbn [fst snd]. now rewrite R2.
Qed.

Lemma all_none_last {A : Type} (l : list A) :
  last (map (fun _ => @None Go.error) l) None = None.
Proof.
  induction l as [|a [|a' l] IH]; [reflexivity | reflexivity |].
  exact IH.
Qed.

Lemma all_none_Forall {A : Type} (l : list A) :
  Forall (fun e : option Go.error => e = None) (map (fun _ => None) l).
Proof. induction l; constructor; auto. Qed.

Lemma Forall_removelast {A : Type} (P : A -> Prop) (l : list A) :
  Forall P l -> Forall P (removelast l).
Proof.
  induction l as [|a [|a' l] IH]; intros H; [constructor | constructor |].
  inversion H; subst. cbn [removelast]. constructor; [assumption|].
  apply IH. assumption.
Qed.

(** Each step of Setattr as a stretch: no call if its field is not
    requested, else one call, which failed exactly when the step leaves
    with an error, that call's own. *)
Lemma Setattr_size_stretch (ctx : Ctx) (req : fuse.SetattrRequest) (v : Z) (s s1 : State)
      (r : Go.error + Z) :
  File.Setattr_size ctx req v s = File.Returns r s1 ->
  exists l,
    map Calls.op (map Calls.call l)
    = (if fuse.has v fuse.SetattrSize then [Calls.OpTruncate] else [])
    /\ stretch ctx s s1 l
         (match r with inl e => [Some e] | inr _ => map (fun _ => None) l end).
Proof.
  rewrite Operations.Setattr_size_spec, Operations.has_Size.
  destruct (Z.testbit v 3).
  - cbv zeta. destruct (libkbfs.Truncate ctx _ _ _) as [[e|] b] eqn:E; intros H;
      injection H as <- <-;
      exists [Calls.Truncate (File.getPathLocked (File.node s)) (fuse.s_Size req)];
      (split; [reflexivity|]); (split; [reflexivity|]);
      cbn [Calls.replay Calls.answer]; rewrite E; reflexivity.
  - intros H. injection H as <- <-. exists []. split; [reflexivity|].
    split; [now rewrite app_nil_r | reflexivity].
Qed.

Lemma Setattr_mode_stretch (ctx : Ctx) (req : fuse.SetattrRequest) (v : Z) (s s1 : State)
      (r : Go.error + Z) :
  File.Setattr_mode ctx req v s = File.Returns r s1 ->
  exists l,
    map Calls.op (map Calls.call l)
    = (if fuse.has v fuse.SetattrMode then [Calls.OpSetEx] else [])
    /\ stretch ctx s s1 l
         (match r with inl e => [Some e] | inr _ => map (fun _ => None) l end).
Proof.
  rewrite Operations.Setattr_mode_spec, Operations.has_Mode.
  destruct (Z.testbit v 0).
  - cbv zeta. destruct (libkbfs.SetEx ctx _ _ _) as [[p [e|]] b] eqn:E; intros H.
    + injection H as <- <-.
      exists [Calls.SetEx (File.getPathLocked (File.node s))
                (Z.testbit (fuse.s_Mode req) 6)].
      split; [reflexivity|]. split; [reflexivity|].
      cbn [Calls.replay Calls.answer]. rewrite E. reflexivity.
    + destruct (File.updatePathLocked p _) as [u s2|w] eqn:Eu; [|discriminate].
      injection H as <- <-.
      destruct (Invariants.updatePathLocked_returns _ _ _ _ Eu) as (Hk & Hc & _).
      exists [Calls.SetEx (File.getPathLocked (File.node s))
                (Z.testbit (fuse.s_Mode req) 6)].
      split; [reflexivity|]. split; [exact Hc|].
      cbn [Calls.replay Calls.answer]. rewrite E, Hk. reflexivity.
  - intros H. injection H as <- <-. exists []. split; [reflexivity|].
    split; [now rewrite app_nil_r | reflexivity].
Qed.

Lemma Setattr_mtime_stretch (ctx : Ctx) (req : fuse.SetattrRequest) (v : Z) (s s1 : State)
      (r : Go.error + Z) :
  File.Setattr_mtime ctx req v s = File.Returns r s1 ->
  exists l,
    map Calls.op (map Calls.call l)
    = (if fuse.has v fuse.SetattrMtime then [Calls.OpSetMtime] else [])
    /\ stretch ctx s s1 l
         (match r with inl e => [Some e] | inr _ => map (fun _ => None) l end).
Proof.
  rewrite Operations.Setattr_mtime_spec, Operations.has_Mtime.
  destruct (Z.testbit v 5).
  - cbv zeta. destruct (libkbfs.SetMtime ctx _ _ _) as [[p [e|]] b] eqn:E; intros H.
    + injection H as <- <-.
      exists [Calls.SetMtime (File.getPathLocked (File.node s)) (fuse.s_Mtime req)].
      split; [reflexivity|]. split; [reflexivity|].
      cbn [Calls.replay Calls.answer]. rewrite E. reflexivity.
    + destruct (File.updatePathLocked p _) as [u s2|w] eqn:Eu; [|discriminate].
      injection H as <- <-.
      destruct (Invariants.updatePathLocked_returns _ _ _ _ Eu) as (Hk & Hc & _).
      exists [Calls.SetMtime (File.getPathLocked (File.node s)) (fuse.s_Mtime req)].
      split; [reflexivity|]. split; [exact Hc|].
      cbn [Calls.replay Calls.answer]. rewrite E, Hk. reflexivity.
  - intros H. injection H as <- <-. exists []. split; [reflexivity|].
    split; [now rewrite app_nil_r | reflexivity].
Qed.

(** X9. The backend calls of a Setattr that returns are, in this order, at
    most one Truncate, one SetEx and one SetMtime, each only if its field
    is requested, and the sequence stops at the first call that fails:
    replayed on the backend, every call but the last answers without an
    error; if the last one answers with an error, that error is what
    Setattr returns; if it does not, every requested call was made and
    Setattr returns nil, or ENOSYS when an unknown field was requested. *)
Theorem Setattr_calls_in_order :
  forall (ctx : Ctx) (req : fuse.SetattrRequest) (s s' : State) (r : option Go.error),
    File.Setattr ctx req s = File.Returns r s' ->
    exists l rest,
      File.calls s' = File.calls s ++ map Calls.call l
      /\ Calls.requested (fuse.s_Valid req) = map Calls.op (map Calls.call l) ++ rest
      /\ File.kbfs s' = snd (Calls.replay ctx l (File.kbfs s))
      /\ Forall (fun e => e = None) (removelast (fst (Calls.replay ctx l (File.kbfs s))))
      /\ (forall e, last (fst (Calls.replay ctx l (File.kbfs s))) None = Some e ->
                    r = Some e)
      /\ (last (fst (Calls.replay ctx l (File.kbfs s))) None = None ->
          rest = []
          /\ r = if File.unhandled (fuse.s_Valid req) =? 0 then None else Some fuse.ENOSYS)
      /\ (r = None -> rest = [] /\ File.unhandled (fuse.s_Valid req) = 0).
Proof.
  intros ctx req s s' r. rewrite Operations.Setattr_outline. unfold Calls.requested.
  destruct (File.Setattr_size ctx req _ s) as [[e|v1] s1|w] eqn:E1; try discriminate;
    destruct (Setattr_size_stretch _ _ _ _ _ _ E1) as (l1 & O1 & S1).
  - intros H. injection H as <- <-. destruct S1 as [C1 R1].
    exists l1. eexists. rewrite R1, O1. cbn [fst snd removelast last].
    split; [exact C1|]. split; [reflexivity|]. split; [reflexivity|].
    split; [constructor|]. split; [congruence|].
    split; intros Hn; discriminate Hn.
  - destruct (File.Setattr_mode ctx req _ s1) as [[e|v2] s2|w] eqn:E2; try discriminate;
      destruct (Setattr_mode_stretch _ _ _ _ _ _ E2) as (l2 & O2 & S2);
      pose proof (stretch_app _ _ _ _ _ _ _ _ S1 S2) as [C2 R2].
    + intros H. injection H as <- <-.
      exists (l1 ++ l2). eexists. rewrite R2. cbn [fst snd].
      rewrite removelast_last, last_last.
      split; [exact C2|].
      split; [rewrite !map_app, O1, O2, <- app_assoc; reflexivity|].
      split; [reflexivity|]. split; [apply all_none_Forall|].
      split; [congruence|]. split; intros Hn; discriminate Hn.
    + destruct (File.Setattr_mtime ctx req _ s2) as [[e|v3] s3|w] eqn:E3;
        try discriminate;
        destruct (Setattr_mtime_stretch _ _ _ _ _ _ E3) as (l3 & O3 & S3);
        pose proof (stretch_app _ _ _ _ _ _ _ _ (conj C2 R2) S3) as [C3 R3];
        intros H; injection H as <- <-;
        exists ((l1 ++ l2) ++ l3), []; rewrite R3; cbn [fst snd];
        (split; [exact C3|]);
        (split; [rewrite !map_app, O1, O2, O3, app_nil_r, <- app_assoc; reflexivity|]);
        (split; [reflexivity|]).
      * rewrite removelast_last, last_last.
        split; [rewrite <- map_app; apply all_none_Forall|].
        split; [congruence|]. split; intros Hn; discriminate Hn.
      * rewrite <- !map_app.
        split; [apply Forall_removelast, all_none_Forall|].
        split; [rewrite all_none_last; intros e0 Hn; discriminate Hn|].
        split; [intros _; split; reflexivity|].
        intros Hr. split; [reflexivity|].
        destruct (Z.eqb_spec (File.unhandled (fuse.s_Valid req)) 0);
          [assumption | discriminate].
Qed.

(** X10. The first backend call of a Setattr that returns is made on the
    Path reconstructed from the node as the request found it, with the
    request's own value: the Truncate to the requested size if a size is
    requested, even when the call as a whole then fails; else the SetEx
    with bit 0100 of the mode; else the SetMtime with the requested time. *)
Theorem Setattr_first_call :
  forall (ctx : Ctx) (req : fuse.SetattrRequest) (s s' : State) (r : option Go.error),
    File.Setattr ctx req s = File.Returns r s' ->
    (fuse.has (fuse.s_Valid req) fuse.SetattrSize = true ->
     exists rest,
       File.calls s'
       = File.calls s
         ++ libkbfs.CallTruncate (File.getPathLocked (File.node s)) (fuse.s_Size req)
            :: rest)
    /\
    (fuse.has (fuse.s_Valid req) fuse.SetattrSize = false ->
     fuse.has (fuse.s_Valid req) fuse.SetattrMode = true ->
     exists rest,
       File.calls s'
       = File.calls s
         ++ libkbfs.CallSetEx (File.getPathLocked (File.node s))
              (Z.testbit (fuse.s_Mode req) 6)
            :: rest)
    /\
    (fuse.has (fuse.s_Valid req) fuse.SetattrSize = false ->
     fuse.has (fuse.s_Valid req) fuse.SetattrMode = false ->
     fuse.has (fuse.s_Valid req) fuse.SetattrMtime = true ->
     exists rest,
       File.calls s'
       = File.calls s
         ++ libkbfs.CallSetMtime (File.getPathLocked (File.node s)) (fuse.s_Mtime req)
            :: rest).
Proof.
  intros ctx req s s' r H. rewrite Operations.Setattr_outline in H.
  split; [|split].
  - intros Hs.
    destruct (File.Setattr_size ctx req _ s) as [[e|v1] s1|w] eqn:E1; try discriminate;
      destruct (Setattr_size_calls _ _ _ _ _ _ E1) as [C1 _]; rewrite Hs in C1.
    + injection H as _ <-. exists []. exact C1.
    + destruct (File.Setattr_mode ctx req _ s1) as [[e|v2] s2|w] eqn:E2;
        try discriminate;
        destruct (Invariants.follows_mode _ _ _ _ _ _ E2) as [_ [l2 C2]].
      * injection H as _ <-. exists l2. now rewrite C2, C1, <- app_assoc.
      * destruct (File.Setattr_mtime ctx req _ s2) as [[e|v3] s3|w] eqn:E3;
          try discriminate;
          destruct (Invariants.follows_mtime _ _ _ _ _ _ E3) as [_ [l3 C3]];
          injection H as _ <-; exists (l2 ++ l3);
          now rewrite C3, C2, C1, <- !app_assoc.
  - intros Hs Hm. rewrite Operations.has_Size in Hs.
    rewrite Operations.Setattr_size_skip in H by exact Hs.
    destruct (File.Setattr_mode ctx req _ s) as [[e|v2] s2|w] eqn:E2;
      try discriminate;
      destruct (Setattr_mode_calls _ _ _ _ _ _ E2) as [C2 _]; rewrite Hm in C2.
    + injection H as _ <-. exists []. exact C2.
    + destruct (File.Setattr_mtime ctx req _ s2) as [[e|v3] s3|w] eqn:E3;
        try discriminate;
        destruct (Invariants.follows_mtime _ _ _ _ _ _ E3) as [_ [l3 C3]];
        injection H as _ <-; exists l3; now rewrite C3, C2, <- app_assoc.
  - intros Hs Hm Ht. rewrite Operations.has_Size in Hs. rewrite Operations.has_Mode in Hm.
    rewrite Operations.Setattr_size_skip in H by exact Hs.
    rewrite Operations.Setattr_mode_skip in H by exact Hm.
    destruct (File.Setattr_mtime ctx req _ s) as [[e|v3] s3|w] eqn:E3;
      try discriminate;
      destruct (Setattr_mtime_calls _ _ _ _ _ _ E3) as [C3 _]; rewrite Ht in C3;
      injection H as _ <-; exists []; exact C3.
Qed.


(** X13. Inside one Setattr the Path returned for the mode change is the
    one the time change goes out on: with mode and mtime requested (and no
    size), after a SetEx that succeeds the call makes exactly the SetEx and
    then a SetMtime; if the Path SetEx returned ends in a PathNode of the
    node's name, the SetMtime Path ends in that very PathNode, and if the
    name differs the SetMtime goes out on the same Path as the SetEx. *)
Theorem Setattr_mode_then_mtime :
  forall (ctx : Ctx) (req : fuse.SetattrRequest) (s s' : State) (r : option Go.error)
         (top : libkbfs.DirId) (q : list libkbfs.PathNode) (pNode : libkbfs.PathNode)
         (b : B),
    fuse.has (fuse.s_Valid req) fuse.SetattrSize = false ->
    fuse.has (fuse.s_Valid req) fuse.SetattrMode = true ->
    fuse.has (fuse.s_Valid req) fuse.SetattrMtime = true ->
    libkbfs.SetEx ctx (File.getPathLocked (File.node s)) (Z.testbit (fuse.s_Mode req) 6)
      (File.kbfs s) = ((libkbfs.mkPath top (q ++ [pNode]), None), b) ->
    File.Setattr ctx req s = File.Returns r s' ->
    exists p1,
      File.calls s'
      = File.calls s
        ++ [libkbfs.CallSetEx (File.getPathLocked (File.node s))
              (Z.testbit (fuse.s_Mode req) 6);
            libkbfs.CallSetMtime p1 (fuse.s_Mtime req)]
      /\ (libkbfs.Name (File.pathNode (File.node s)) = libkbfs.Name pNode ->
          Go.index (libkbfs.Path_ p1) (Go.len (libkbfs.Path_ p1) - 1) = Some pNode)
      /\ (libkbfs.Name (File.pathNode (File.node s)) <> libkbfs.Name pNode ->
          p1 = File.getPathLocked (File.node s)).
Proof.
  intros ctx req s s' r top q pNode b Hs Hm Ht Hex H.
  rewrite Operations.has_Size in Hs. rewrite Operations.has_Mode in Hm.
  rewrite Operations.Setattr_outline in H.
  rewrite Operations.Setattr_size_skip in H by exact Hs.
  rewrite Operations.Setattr_mode_spec, Hm in H. cbv zeta in H. rewrite Hex in H.
  destruct (File.updatePathLocked _ _) as [u s2|w] eqn:Eu; [|discriminate].
  rewrite Propagation.updatePathLocked_spec in Eu. cbn [File.called File.node] in Eu.
  assert (Hrest : exists r3, File.Setattr_mtime ctx req (fuse.s_Valid req) s2
                             = File.Returns r3 s').
  { destruct (File.Setattr_mtime ctx req _ s2) as [[e|v3] s3|w]; try discriminate;
      injection H as _ <-; eauto. }
  destruct Hrest as [r3 E3].
  destruct (Setattr_mtime_calls _ _ _ _ _ _ E3) as [C3 _]. rewrite Ht in C3.
  exists (File.getPathLocked (File.node s2)).
  destruct (String.eqb_spec (libkbfs.Name (File.pathNode (File.node s)))
              (libkbfs.Name pNode)) as [En | En].
  - destruct (Dir.updatePathLocked _ _) as [d|]; [|discriminate].
    injection Eu as _ <-. cbn [File.calls File.node] in *.
    split; [rewrite C3, <- app_assoc; reflexivity|].
    split; [|intros Hne; contradiction].
    intros _. unfold File.getPathLocked. cbn [libkbfs.Path_ File.pathNode].
    apply GoFacts.index_last.
  - injection Eu as _ <-. cbn [File.called File.calls File.node] in *.
    split; [rewrite C3, <- app_assoc; reflexivity|].
    split; [intros He; contradiction | reflexivity].
Qed.

End Facts.

(** On the in-memory backend. *)

Lemma Attr_one_stat_witness :
  exists r s',
    File.Attr tt Sample.attr0 (Sample.state false (Some Sample.EIO)) = File.Returns r s'
    /\ snd r = Some Sample.EIO
    /\ fst r = Sample.attr0.
Proof.
  destruct (Attr_one_stat tt Sample.attr0 (Sample.state false (Some Sample.EIO)))
    as (r & s' & H & _ & _ & He & _ & Ha).
  exists r, s'. split; [exact H|]. split; [exact He|].
  apply Ha. rewrite He. discriminate.
Defined.

Lemma Read_within_buffer_witness :
  File.Read tt (fuse.mkReadRequest 7 16)
    (fuse.mkReadResponse (Go.mkBytes (repeat x00 16) 0)) (Sample.state false None)
  = File.Returns
      (fuse.mkReadResponse
         (Go.mkBytes (Go.overwrite (repeat x00 16) [x77; x6f; x72; x6c; x64; x0a]) 6),
       None)
      (File.called (Sample.state false None)
         (libkbfs.CallRead (File.getPathLocked Sample.myfile) 16 7)
         (Sample.disk false None))
  /\
  Go.len (Go.contents
            (Go.mkBytes (Go.overwrite (repeat x00 16) [x77; x6f; x72; x6c; x64; x0a]) 6))
  = 6.
Proof.
  assert (H : File.Read tt (fuse.mkReadRequest 7 16)
                (fuse.mkReadResponse (Go.mkBytes (repeat x00 16) 0))
                (Sample.state false None)
              = File.Returns
                  (fuse.mkReadResponse
                     (Go.mkBytes
                        (Go.overwrite (repeat x00 16) [x77; x6f; x72; x6c; x64; x0a]) 6),
                   None)
                  (File.called (Sample.state false None)
                     (libkbfs.CallRead (File.getPathLocked Sample.myfile) 16 7)
                     (Sample.disk false None))) by reflexivity.
  split; [exact H|].
  destruct (Read_within_buffer tt _ _ _ _ _ _ H) as (_ & _ & _ & _ & Hl). exact Hl.
Defined.

Lemma Setattr_calls_in_order_witness :
  File.Setattr tt (Sample.setattr (Z.lor fuse.SetattrSize fuse.SetattrMode) 0)
    (Sample.state true (Some Sample.EIO))
  = File.Returns (Some Sample.EIO)
      (File.called (Sample.state true (Some Sample.EIO))
         (libkbfs.CallTruncate (File.getPathLocked Sample.myfile) 5)
         (Sample.disk true (Some Sample.EIO)))
  /\
  exists l rest,
    [libkbfs.CallTruncate (File.getPathLocked Sample.myfile) 5] = [] ++ map Calls.call l
    /\ Calls.requested (Z.lor fuse.SetattrSize fuse.SetattrMode)
       = map Calls.op (map Calls.call l) ++ rest
    /\ Forall (fun e => e = None)
         (removelast (fst (Calls.replay tt l (Sample.disk true (Some Sample.EIO))))).
Proof.
  assert (H : File.Setattr tt (Sample.setattr (Z.lor fuse.SetattrSize fuse.SetattrMode) 0)
                (Sample.state true (Some Sample.EIO))
              = File.Returns (Some Sample.EIO)
                  (File.called (Sample.state true (Some Sample.EIO))
                     (libkbfs.CallTruncate (File.getPathLocked Sample.myfile) 5)
                     (Sample.disk true (Some Sample.EIO)))) by reflexivity.
  split; [exact H|].
  destruct (Setattr_calls_in_order tt _ _ _ _ H) as (l & rest & Hc & Hr & _ & Hf & _).
  exists l, rest. split; [exact Hc|]. split; [exact Hr | exact Hf].
Defined.

Lemma Setattr_first_call_witness :
  File.Setattr tt (Sample.setattr (Z.lor fuse.SetattrSize fuse.SetattrUid) 0)
    (Sample.state false None)
  = File.Returns (Some fuse.ENOSYS)
      (File.called (Sample.state false None)
         (libkbfs.CallTruncate (File.getPathLocked Sample.myfile) 5)
         (memfs.mkFS (firstn 5 Sample.hello) false 0 0 None))
  /\
  fuse.has (Z.lor fuse.SetattrSize fuse.SetattrUid) fuse.SetattrSize = true
  /\
  exists rest,
    [libkbfs.CallTruncate (File.getPathLocked Sample.myfile) 5]
    = [] ++ libkbfs.CallTruncate (File.getPathLocked Sample.myfile) 5 :: rest.
Proof.
  assert (H : File.Setattr tt (Sample.setattr (Z.lor fuse.SetattrSize fuse.SetattrUid) 0)
                (Sample.state false None)
              = File.Returns (Some fuse.ENOSYS)
                  (File.called (Sample.state false None)
                     (libkbfs.CallTruncate (File.getPathLocked Sample.myfile) 5)
                     (memfs.mkFS (firstn 5 Sample.hello) false 0 0 None)))
    by reflexivity.
  assert (Hs : fuse.has
                 (fuse.s_Valid (Sample.setattr (Z.lor fuse.SetattrSize fuse.SetattrUid) 0))
                 fuse.SetattrSize = true) by reflexivity.
  split; [exact H|]. split; [exact Hs|].
  destruct (Setattr_first_call tt _ _ _ _ H) as (H1 & _ & _).
  exact (H1 Hs).
Defined.


Lemma Setattr_mode_then_mtime_witness :
  libkbfs.SetEx tt (File.getPathLocked Sample.myfile) true (Sample.disk false None)
  = ((libkbfs.mkPath 1 ([libkbfs.mkPathNode 1 "jdoe"] ++ [libkbfs.mkPathNode 1 "myfile"]),
      None),
     memfs.mkFS Sample.hello true 0 1 None)
  /\
  exists s' p1,
    File.Setattr tt
      (Sample.setattr (Z.lor fuse.SetattrMode fuse.SetattrMtime) (Go.octal [7;5;5]))
      (Sample.state false None) = File.Returns None s'
    /\ File.calls s'
       = [] ++ [libkbfs.CallSetEx (File.getPathLocked Sample.myfile) true;
                libkbfs.CallSetMtime p1 1420167845000000006]
    /\ Go.index (libkbfs.Path_ p1) (Go.len (libkbfs.Path_ p1) - 1)
       = Some (libkbfs.mkPathNode 1 "myfile").
Proof.
  assert (Hex : libkbfs.SetEx tt (File.getPathLocked (File.node (Sample.state false None)))
                  (Z.testbit
                     (fuse.s_Mode
                        (Sample.setattr (Z.lor fuse.SetattrMode fuse.SetattrMtime)
                           (Go.octal [7;5;5]))) 6)
                  (File.kbfs (Sample.state false None))
                = ((libkbfs.mkPath 1
                      ([libkbfs.mkPathNode 1 "jdoe"] ++ [libkbfs.mkPathNode 1 "myfile"]),
                    None),
                   memfs.mkFS Sample.hello true 0 1 None)) by reflexivity.
  split; [exact Hex|].
  destruct (File.Setattr tt
              (Sample.setattr (Z.lor fuse.SetattrMode fuse.SetattrMtime) (Go.octal [7;5;5]))
              (Sample.state false None)) as [r s'|w] eqn:E;
    [|vm_compute in E; discriminate].
  assert (Hr : r = None) by (vm_compute in E; congruence).
  subst r.
  destruct (Setattr_mode_then_mtime tt
              (Sample.setattr (Z.lor fuse.SetattrMode fuse.SetattrMtime) (Go.octal [7;5;5]))
              (Sample.state false None) s' None 1 _ _ _ eq_refl eq_refl eq_refl Hex E)
    as (p1 & Hc & Hm & _).
  exists s', p1. split; [reflexivity|]. split; [exact Hc|]. exact (Hm eq_refl).
Defined.


End Requests.

(* ===================================================================== *)
(** ** The directory check of mount_test.go *)
(* ===================================================================== *)

Module TestUtilFacts.

Import testutil.

Lemma lookup_delete (want : Want) (k k' : string) :
  lookup (delete want k) k' = if String.eqb k k' then None else lookup want k'.
Proof.
  induction want as [|[k0 v] want IH]; simpl.
  - now destruct (String.eqb k k').
  - destruct (String.eqb_spec k0 k) as [-> | Hk0]; simpl.
    + rewrite IH. destruct (String.eqb_spec k k'); reflexivity.
    + rewrite IH. destruct (String.eqb_spec k0 k') as [-> | Hk0'].
      * destruct (String.eqb_spec k k'); [congruence | reflexivity].
      * reflexivity.
Qed.

Lemma In_keys_lookup (want : Want) (k : string) :
  In k (keys want) <-> exists c, lookup want k = Some c.
Proof.
  induction want as [|[k0 v] want IH]; simpl.
  - split; [intros [] | intros [c H]; discriminate].
  - destruct (String.eqb_spec k0 k) as [-> | Hk0].
    + split; [eauto | auto].
    + rewrite IH. split; [intros [H | H]; [contradiction | exact H] | auto].
Qed.

Lemma In_keys_delete (want : Want) (k k' : string) :
  In k' (keys (delete want k)) <-> In k' (keys want) /\ k' <> k.
Proof.
  rewrite !In_keys_lookup, lookup_delete.
  destruct (String.eqb_spec k k') as [-> | Hk].
  - split; [intros [c H]; discriminate | intros [_ H]; contradiction].
  - split; [intros H; split; [exact H | congruence] | intros [H _]; exact H].
Qed.

Lemma entries_nil_iff (fis : list FileInfo) :
  forall want,
    checkDir_entries fis want = [] <->
    NoDup (map fi_Name fis)
    /\ (forall fi, In fi fis -> exists c, lookup want (fi_Name fi) = Some c /\ passes c fi)
    /\ (forall k, In k (keys want) -> In k (map fi_Name fis)).
Proof.
  induction fis as [|fi rest IH]; intros want.
  - simpl. split.
    + intros H. apply map_eq_nil in H. unfold keys in *. rewrite H.
      repeat split; [constructor | intros fi [] | intros k []].
    + intros (_ & _ & H). destruct (keys want) as [|k ks]; [reflexivity|].
      destruct (H k (or_introl eq_refl)).
  - cbn [checkDir_entries map].
    destruct (lookup want (fi_Name fi)) as [check|] eqn:El.
    + assert (Hbody :
                match check with
                | Some chk =>
                    match chk fi with
                    | Some err =>
                        CheckFailed (fi_Name fi) err
                        :: checkDir_entries rest (delete want (fi_Name fi))
                    | None => checkDir_entries rest (delete want (fi_Name fi))
                    end
                | None => checkDir_entries rest (delete want (fi_Name fi))
                end = []
                <-> passes check fi
                    /\ checkDir_entries rest (delete want (fi_Name fi)) = []).
      { unfold passes. destruct check as [chk|]; [destruct (chk fi)|].
        - split; [discriminate | intros [H _]; discriminate].
        - split; [auto | intros [_ H]; exact H].
        - split; [auto | intros [_ H]; exact H]. }
      rewrite Hbody, IH. clear Hbody IH. split.
      * intros (Hp & Hnd & Hall & Hkeys). split; [|split].
        -- constructor; [|exact Hnd]. intros Hin. apply in_map_iff in Hin.
           destruct Hin as (fi' & Hn & Hfi'). destruct (Hall fi' Hfi') as (c & Hc & _).
           rewrite lookup_delete, Hn, String.eqb_refl in Hc. discriminate.
        -- intros fi' [<- | Hfi']; [eauto|].
           destruct (Hall fi' Hfi') as (c & Hc & Hpc). rewrite lookup_delete in Hc.
           destruct (String.eqb (fi_Name fi) (fi_Name fi')); [discriminate | eauto].
        -- intros k Hk. destruct (String.eqb_spec k (fi_Name fi)) as [-> | Hne];
             [now left | right].
           apply Hkeys, In_keys_delete. auto.
      * intros (Hnd & Hall & Hkeys). inversion Hnd as [|x xs Hnotin Hnd']; subst.
        destruct (Hall fi (or_introl eq_refl)) as (c & Hc & Hpc).
        rewrite El in Hc. injection Hc as <-.
        split; [exact Hpc|]. split; [exact Hnd'|]. split.
        -- intros fi' Hfi'. destruct (Hall fi' (or_intror Hfi')) as (c' & Hc' & Hpc').
           exists c'. split; [|exact Hpc']. rewrite lookup_delete.
           destruct (String.eqb_spec (fi_Name fi) (fi_Name fi')) as [E | _]; [|exact Hc'].
           exfalso. apply Hnotin. rewrite E. now apply in_map.
        -- intros k Hk. apply In_keys_delete in Hk. destruct Hk as [Hk Hne].
           destruct (Hkeys k Hk) as [E | Hin]; [congruence | exact Hin].
    + split; [discriminate|].
      intros (_ & Hall & _). destruct (Hall fi (or_introl eq_refl)) as (c & Hc & _).
      congruence.
Qed.

(** X11. checkDir reports nothing exactly when the listing and the wanted
    map agree: no name is listed twice, every listed entry has its name in
    the map and passes the check mapped to it (a nil check passes), and
    every name of the map is listed.  A failed ReadDir is fatal whatever the
    map holds. *)
Theorem checkDir_passes_iff :
  forall (fis : list FileInfo) (want : Want),
    (checkDir (fis, None) want = Errors [] <->
     NoDup (map fi_Name fis)
     /\ (forall fi, In fi fis -> exists c, lookup want (fi_Name fi) = Some c /\ passes c fi)
     /\ (forall k, In k (keys want) -> In k (map fi_Name fis)))
    /\ (forall e, checkDir (fis, Some e) want = Fatal e).
Proof.
  intros fis want. split; [|reflexivity].
  unfold checkDir. rewrite <- entries_nil_iff.
  split; [intros H; now injection H | intros ->; reflexivity].
Qed.

(** X12. checkDir reports a name as never seen exactly when the name is in
    the wanted map and not in the listing. *)
Theorem checkDir_never_saw_iff :
  forall (fis : list FileInfo) (want : Want) (k : string),
    In (NeverSaw k) (checkDir_entries fis want) <->
    In k (keys want) /\ ~ In k (map fi_Name fis).
Proof.
  induction fis as [|fi rest IH]; intros want k.
  - simpl. rewrite in_map_iff. split.
    + intros (k' & Hk & Hin). injection Hk as ->. auto.
    + intros [Hin _]. eauto.
  - cbn [checkDir_entries map].
    assert (Hdel : In (NeverSaw k) (checkDir_entries rest (delete want (fi_Name fi)))
                   <-> In k (keys want) /\ ~ In k (fi_Name fi :: map fi_Name rest)).
    { rewrite IH, In_keys_delete. simpl. split.
      - intros [[Hk Hne] Hn]. split; [exact Hk|]. intros [E | Hin]; [congruence | auto].
      - intros [Hk Hn]. split; [split; [exact Hk|] |]; intros H; apply Hn; auto. }
    destruct (lookup want (fi_Name fi)) as [check|] eqn:El.
    + destruct check as [chk|]; [destruct (chk fi)|]; try exact Hdel.
      rewrite <- Hdel. simpl. split; [intros [H | H]; [discriminate | exact H] | auto].
    + simpl. rewrite IH. split.
      * intros [H | [Hk Hn]]; [discriminate|]. split; [exact Hk|].
        intros [E | Hin]; [|auto]. subst k. apply In_keys_lookup in Hk.
        destruct Hk as [c Hc]. congruence.
      * intros [Hk Hn]. right. split; [exact Hk|]. intros H. apply Hn. auto.
Qed.

Lemma checkDir_passes_iff_witness :
  checkDir ([mkFileInfo "jdoe" 0 (Go.octal [7;0;0]) true], None)
    [("jdoe"%string, Some mustBeDir)] = Errors []
  /\
  NoDup (map fi_Name [mkFileInfo "jdoe" 0 (Go.octal [7;0;0]) true])
  /\
  (forall k, In k (keys [("jdoe"%string, Some mustBeDir)]) ->
             In k (map fi_Name [mkFileInfo "jdoe" 0 (Go.octal [7;0;0]) true])).
Proof.
  assert (H : checkDir ([mkFileInfo "jdoe" 0 (Go.octal [7;0;0]) true], None)
                [("jdoe"%string, Some mustBeDir)] = Errors []) by reflexivity.
  split; [exact H|].
  destruct (proj1 (proj1 (checkDir_passes_iff _ _)) H) as (Hnd & _ & Hk).
  split; [exact Hnd | exact Hk].
Defined.

Lemma checkDir_never_saw_iff_witness :
  (In "public"%string (keys [("jdoe"%string, Some mustBeDir); ("public"%string, None)])
   /\ ~ In "public"%string (map fi_Name [mkFileInfo "jdoe" 0 (Go.octal [7;0;0]) true]))
  /\
  In (NeverSaw "public")
    (checkDir_entries [mkFileInfo "jdoe" 0 (Go.octal [7;0;0]) true]
       [("jdoe"%string, Some mustBeDir); ("public"%string, None)]).
Proof.
  assert (H : In "public"%string
                (keys [("jdoe"%string, Some mustBeDir); ("public"%string, None)])
              /\ ~ In "public"%string
                     (map fi_Name [mkFileInfo "jdoe" 0 (Go.octal [7;0;0]) true])).
  { split; [right; left; reflexivity|]. intros [E | []]. discriminate. }
  split; [exact H|].
  exact (proj2 (checkDir_never_saw_iff _ _ _) H).
Defined.

(** TestReaddirRoot: the root lists [jdoe], a directory. *)
Example readdir_root :
  checkDir ([mkFileInfo "jdoe" 0 (Go.octal [7;0;0]) true], None)
    [("jdoe"%string, Some mustBeDir)] = Errors [].
Proof. reflexivity. Qed.

(** A file where a directory is wanted, a stray entry and a missing one. *)
Example readdir_reports :
  checkDir ([mkFileInfo "jdoe" 0 (Go.octal [6;4;4]) false;
             mkFileInfo "stray" 3 (Go.octal [6;4;4]) false], None)
    [("jdoe"%string, Some mustBeDir); ("public"%string, None)]
  = Errors [CheckFailed "jdoe" (Go.ErrorString "not a directory");
            UnexpectedDirentry "stray" 3 (Go.octal [6;4;4]);
            NeverSaw "public"].
Proof. reflexivity. Qed.

End TestUtilFacts.
